(** * Terrain and stepstone scene generators of [motion_imitation.envs.scenes]

    A shallow embedding of [random_heightfiled_terrain.py], [plane_terrain.py]
    and [stepstone_terrain.py], and the properties of the three classes
    [RandomHeightFieldTerrain], [Terrain] and [RandomStepstoneScene].

    Conventions of the embedding.
    - Python numbers are exact rationals ([Q]) or integers ([Z]); rounding of
      binary floating point is not modelled.
    - A method is a computation over the object it mutates and the world
      around it; it ends with a value or with a raised exception, and the
      state reached at that point is kept in both cases.
    - The pseudo-random generators ([random], [numpy.random]) and the
      constants of the absent module [stepstones] are parameters. *)

From Stdlib Require Import ZArith QArith Lia Lqa String.
From stdpp Require Import base list.

Open Scope Z_scope.

(** ** Exceptions, results and the state-and-exception monad *)

Inductive exn : Type :=
| ValueError (msg : string)
| AttributeError (attr : string)
| NameError (name : string)
| UnboundLocalError (name : string)
| IndexError (msg : string)
| ZeroDivisionError (msg : string).

Inductive result (A : Type) : Type :=
| Ok (a : A)
| Raise (e : exn).
Arguments Ok {A} a.
Arguments Raise {A} e.

Definition is_raise {A} (r : result A) : Prop :=
  match r with Ok _ => False | Raise _ => True end.

Definition M (S A : Type) : Type := S -> result A * S.

Definition ret {S A} (a : A) : M S A := fun s => (Ok a, s).

Definition raise {S A} (e : exn) : M S A := fun s => (Raise e, s).

Definition bind {S A B} (m : M S A) (k : A -> M S B) : M S B :=
  fun s => match m s with
           | (Ok a, s') => k a s'
           | (Raise e, s') => (Raise e, s')
           end.

Notation "x <- m ;; k" := (bind m (fun x => k))
  (at level 100, m at next level, right associativity).
Notation "m ;; k" := (bind m (fun _ => k))
  (at level 100, right associativity).

Definition lift_result {S A} (r : result A) : M S A := fun s => (r, s).

Definition gets {S A} (f : S -> A) : M S A := fun s => (Ok (f s), s).

Definition modify {S} (f : S -> S) : M S unit := fun s => (Ok tt, f s).

(** Runs a computation on one component of the state. *)
Definition zoom {S T A} (proj : S -> T) (upd : T -> S -> S) (m : M T A) : M S A :=
  fun s => let '(r, t) := m (proj s) in (r, upd t s).

(** [for x in l: acc = body(x, acc)]; an exception leaves the loop. *)
Fixpoint for_fold {S A B} (l : list A) (body : A -> B -> M S B) (acc : B) : M S B :=
  match l with
  | [] => ret acc
  | x :: l' => acc' <- body x acc ;; for_fold l' body acc'
  end.

(** ** Python built-ins used by the scenes *)

(** [range(n)]: empty when [n <= 0]. *)
Definition py_range (n : Z) : list Z := seqZ 0 n.

(** [l * n] on lists: [n] copies of [l], none when [n <= 0]. *)
Definition py_list_mul {A} (l : list A) (n : Z) : list A :=
  mjoin (replicate (Z.to_nat n) l).

(** [int(n / 2)] for an integer [n]: true division, then truncation towards
    zero. *)
Definition int_half (n : Z) : Z := Z.quot n 2.

(** [l[i] = v]: negative indices count from the end, anything else out of
    range raises [IndexError]. *)
Definition setitem {A} (l : list A) (i : Z) (v : A) : result (list A) :=
  let n := Z.of_nat (length l) in
  if decide (0 <= i < n) then Ok (<[Z.to_nat i := v]> l)
  else if decide (- n <= i < 0) then Ok (<[Z.to_nat (n + i) := v]> l)
  else Raise (IndexError "list assignment index out of range").

(** An attribute of an object: absent until first assigned. *)
Definition attr (A : Type) : Type := option A.

Definition getattr {A} (name : string) (a : attr A) : result A :=
  match a with
  | Some v => Ok v
  | None => Raise (AttributeError name)
  end.

(** ** Pseudo-random generators

    [gen_next] yields the 53 random bits behind one call of [random()], so
    that the float returned is [k / 2^53], a number of [[0, 1)]. *)

Record PRNG : Type := {
  gen_state : Type;
  gen_seed : Z -> gen_state;
  gen_next : gen_state -> Z * gen_state;
  gen_next_range : forall s, 0 <= fst (gen_next s) < 2 ^ 53
}.

Definition two53 : positive := 9007199254740992.

Section Generator.
Context {G : PRNG}.

(** [random()] *)
Definition random : M (gen_state G) Q :=
  fun s => let '(k, s') := gen_next G s in (Ok (k # two53)%Q, s').

(** [uniform(a, b)], which both [random] and [numpy.random] compute as
    [a + (b - a) * random()]. *)
Definition uniform (a b : Q) : M (gen_state G) Q :=
  x <- random ;; ret (a + (b - a) * x)%Q.

(** The loop shared, up to the names of its variables, by
    [RandomHeightFieldTerrain.build_scene] (lines 55-62) and
    [Terrain.generate_terrain] (lines 34-40): over the grid the caller
    allocated, one draw of [uniform(0, height_bound)] per 2x2 block, written
    to the four cells of the block. *)
Definition block_noise (heightfieldData : list Q) (rows columns : Z) (height_bound : Q)
  : M (gen_state G) (list Q) :=
  for_fold (py_range (int_half columns)) (fun j heightfieldData =>
    for_fold (py_range (int_half rows)) (fun i heightfieldData =>
      height <- uniform 0 height_bound ;;
      d1 <- lift_result (setitem heightfieldData (2*i + 2*j*rows) height) ;;
      d2 <- lift_result (setitem d1 (2*i + 1 + 2*j*rows) height) ;;
      d3 <- lift_result (setitem d2 (2*i + (2*j + 1)*rows) height) ;;
      lift_result (setitem d3 (2*i + 1 + (2*j + 1)*rows) height))
    heightfieldData)
  heightfieldData.

End Generator.

(** The indices of the four cells that the loop writes for block [(i, j)]
    (lines 59-62), as positions of the list. *)
Definition block_cells (rows i j : Z) : list nat :=
  [Z.to_nat (2*i + 2*j*rows); Z.to_nat (2*i + 1 + 2*j*rows);
   Z.to_nat (2*i + (2*j + 1)*rows); Z.to_nat (2*i + 1 + (2*j + 1)*rows)].

(** The four cells of block [(i, j)] hold one and the same height. *)
Definition same_height (data : list Q) (rows i j : Z) : Prop :=
  exists h, Forall (fun p => data !! p = Some h) (block_cells rows i j).

(** ** The physics engine

    The engine is an external collaborator: it is modelled by the log of the
    calls it received and by the identifiers it hands out, consecutive
    integers as pybullet does. A call made through a client is taken to be
    accepted: the errors of the engine itself, such as the one pybullet
    raises for a heightfield without rows or columns, are not modelled. *)

Definition vec3 : Type := Q * Q * Q.
Definition quat : Type := Q * Q * Q * Q.

Inductive geometry : Type :=
| GEOM_HEIGHTFIELD (meshScale : vec3) (heightfieldTextureScaling : Q)
    (heightfieldData : list Q) (numHeightfieldRows numHeightfieldColumns : Z)
| GEOM_BOX (halfExtents : vec3).

Inductive engine_call : Type :=
| SetAdditionalSearchPath (path : string)
| ConfigureDebugVisualizer (flag : string) (enable : Z)
| CreateCollisionShape (g : geometry) (shape : Z)
| CreateMultiBody (baseMass : Q) (shape : Z) (basePosition : vec3)
    (baseOrientation : quat) (body : Z)
| ResetBasePositionAndOrientation (body : Z) (position : vec3) (orientation : quat)
| ChangeVisualShape (body : Z) (link : Z) (rgbaColor : list Q).

Record Engine : Type := {
  calls : list engine_call;
  next_shape : Z;
  next_body : Z
}.

(** A connection to the engine, as [bullet_client.BulletClient] is. *)
Inductive client : Type := BulletClient (connection : Z).

Definition COV_ENABLE_RENDERING : string := "COV_ENABLE_RENDERING".

Definition log (c : engine_call) (e : Engine) : Engine :=
  {| calls := calls e ++ [c]; next_shape := next_shape e; next_body := next_body e |}.

(** A method called on a client that is [None] raises [AttributeError]. *)
Definition on_client {A} (pybullet_client : option client) (method : string)
    (m : M Engine A) : M Engine A :=
  match pybullet_client with
  | Some _ => m
  | None => raise (AttributeError method)
  end.

Definition setAdditionalSearchPath (c : option client) (path : string) : M Engine unit :=
  on_client c "setAdditionalSearchPath" (modify (log (SetAdditionalSearchPath path))).

Definition configureDebugVisualizer (c : option client) (flag : string) (enable : Z)
  : M Engine unit :=
  on_client c "configureDebugVisualizer" (modify (log (ConfigureDebugVisualizer flag enable))).

Definition createCollisionShape (c : option client) (g : geometry) : M Engine Z :=
  on_client c "createCollisionShape" (fun e =>
    (Ok (next_shape e),
     {| calls := calls e ++ [CreateCollisionShape g (next_shape e)];
        next_shape := next_shape e + 1;
        next_body := next_body e |})).

Definition createMultiBody (c : option client) (baseMass : Q) (shape : Z)
    (basePosition : vec3) (baseOrientation : quat) : M Engine Z :=
  on_client c "createMultiBody" (fun e =>
    (Ok (next_body e),
     {| calls := calls e ++
          [CreateMultiBody baseMass shape basePosition baseOrientation (next_body e)];
        next_shape := next_shape e;
        next_body := next_body e + 1 |})).

Definition resetBasePositionAndOrientation (c : option client) (body : Z)
    (position : vec3) (orientation : quat) : M Engine unit :=
  on_client c "resetBasePositionAndOrientation"
    (modify (log (ResetBasePositionAndOrientation body position orientation))).

Definition changeVisualShape (c : option client) (body link : Z) (rgbaColor : list Q)
  : M Engine unit :=
  on_client c "changeVisualShape" (modify (log (ChangeVisualShape body link rgbaColor))).

(** The handles of the bodies created so far, in the order of creation. *)
Definition created_bodies (e : Engine) : list Z :=
  omap (fun c => match c with
                 | CreateMultiBody _ _ _ _ body => Some body
                 | _ => None
                 end) (calls e).

(** The height samples a call submits, when it creates a heightfield. *)
Definition heightfield_data (c : engine_call) : option (list Q) :=
  match c with
  | CreateCollisionShape (GEOM_HEIGHTFIELD _ _ heightfieldData _ _) _ =>
      Some heightfieldData
  | _ => None
  end.

(** The height samples of the heightfield shape created last, if any. *)
Definition last_heightfield (e : Engine) : option (list Q) :=
  last (omap heightfield_data (calls e)).

(** ** The world a scene lives in

    [py_random] is the hidden generator of the module [random], [np_random]
    the global generator of [numpy.random]; [os_entropy] is what the operating
    system answers when a generator is seeded with [None]. The owning
    environment [env] is part of the world: [env_pybullet_client] is its
    [pybullet_client], [env_ground] the ground it was last told of by
    [set_ground]. *)

Record World (G : PRNG) : Type := {
  py_random : gen_state G;
  np_random : gen_state G;
  os_entropy : nat -> Z;
  os_reads : nat;
  engine : Engine;
  env_pybullet_client : client;
  env_ground : option Z
}.
Arguments py_random {G} w.
Arguments np_random {G} w.
Arguments os_entropy {G} w.
Arguments os_reads {G} w.
Arguments engine {G} w.
Arguments env_pybullet_client {G} w.
Arguments env_ground {G} w.

Section WorldOps.
Context {G : PRNG}.

Definition with_py_random (s : gen_state G) (w : World G) : World G :=
  {| py_random := s; np_random := np_random w; os_entropy := os_entropy w;
     os_reads := os_reads w; engine := engine w;
     env_pybullet_client := env_pybullet_client w; env_ground := env_ground w |}.

Definition with_np_random (s : gen_state G) (w : World G) : World G :=
  {| py_random := py_random w; np_random := s; os_entropy := os_entropy w;
     os_reads := os_reads w; engine := engine w;
     env_pybullet_client := env_pybullet_client w; env_ground := env_ground w |}.

Definition with_os_reads (n : nat) (w : World G) : World G :=
  {| py_random := py_random w; np_random := np_random w; os_entropy := os_entropy w;
     os_reads := n; engine := engine w;
     env_pybullet_client := env_pybullet_client w; env_ground := env_ground w |}.

Definition with_engine (e : Engine) (w : World G) : World G :=
  {| py_random := py_random w; np_random := np_random w; os_entropy := os_entropy w;
     os_reads := os_reads w; engine := e;
     env_pybullet_client := env_pybullet_client w; env_ground := env_ground w |}.

Definition with_env_ground (g : option Z) (w : World G) : World G :=
  {| py_random := py_random w; np_random := np_random w; os_entropy := os_entropy w;
     os_reads := os_reads w; engine := engine w;
     env_pybullet_client := env_pybullet_client w; env_ground := g |}.

Definition in_py_random {A} (m : M (gen_state G) A) : M (World G) A :=
  zoom py_random with_py_random m.

Definition in_np_random {A} (m : M (gen_state G) A) : M (World G) A :=
  zoom np_random with_np_random m.

Definition in_engine {A} (m : M Engine A) : M (World G) A :=
  zoom engine with_engine m.

(** The state a generator starts from when seeded with [a]: from the integer
    itself, or from the operating system when [a] is [None]. *)
Definition seeded (a : option Z) : M (World G) (gen_state G) :=
  match a with
  | Some n => ret (gen_seed G n)
  | None => fun w =>
      (Ok (gen_seed G (os_entropy w (os_reads w))), with_os_reads (S (os_reads w)) w)
  end.

(** The state that [seeded a] returns in the world [w]. *)
Definition seeded_state (a : option Z) (w : World G) : gen_state G :=
  match a with
  | Some n => gen_seed G n
  | None => gen_seed G (os_entropy w (os_reads w))
  end.

(** [random.seed(a)] *)
Definition random_module_seed (a : option Z) : M (World G) unit :=
  s <- seeded a ;; modify (with_py_random s).

(** [env.set_ground(ground_id)] *)
Definition set_ground (ground_id : Z) : M (World G) unit :=
  modify (with_env_ground (Some ground_id)).

(** A method body acts on [self] and on the world. *)
Definition in_world {Obj A} (m : M (World G) A) : M (Obj * World G) A :=
  zoom snd (fun w s => (fst s, w)) m.

Definition get_self {Obj} : M (Obj * World G) Obj := gets fst.

Definition set_self {Obj} (f : Obj -> Obj) : M (Obj * World G) unit :=
  modify (fun s => (f (fst s), snd s)).

End WorldOps.

(** ** The module [stepstones]

    [stepstones.py] is not among the sources. Its two colour constants are
    parameters; its three functions are modelled from the specification. *)

Record Palette : Type := {
  GRAY : list Q;
  MULTICOLOR : list (list Q)
}.

Module stepstones.
Section Stepstones.
Context {G : PRNG}.

(** Modelled from the spec: [stepstones.load_box], absent from the sources.
    Section 4.2 (Submission) and section 6: one box collision shape, one body
    of the given mass at the given position and orientation, tinted with the
    given colour; the handle of the body is returned. *)
Definition load_box (pybullet_client : option client) (half_extents : vec3)
    (position : vec3) (orientation : quat) (rgba_color : list Q) (mass : Q)
  : M Engine Z :=
  shape <- createCollisionShape pybullet_client (GEOM_BOX half_extents) ;;
  body <- createMultiBody pybullet_client mass shape position orientation ;;
  changeVisualShape pybullet_client body (-1) rgba_color ;;
  ret body.

(** Modelled from the spec: [stepstones.build_one_stepstone], absent from the
    sources. Section 4.2: the stone lies at the cursor moved on by its gap
    (and raised by its height offset), it is one static axis-aligned box of
    the stone's length, width and height, and the cursor ends at the far end
    of the stone. *)
Definition build_one_stepstone (pybullet_client : option client) (start_pos : vec3)
    (stone_length stone_height stone_width gap_length height_offset : Q)
    (rgba_color : list Q) : M Engine (vec3 * Z) :=
  let '(x, y, z) := start_pos in
  let position := (x + gap_length, y, z + height_offset)%Q in
  step_stone_id <- load_box pybullet_client
      (stone_length / 2, stone_width / 2, stone_height / 2)%Q
      position (0, 0, 0, 1)%Q rgba_color 0 ;;
  ret ((x + gap_length + stone_length, y, z)%Q, step_stone_id).

(** Modelled from the spec: the palette entry of stone [i],
    [colorSequence[i mod len(colorSequence)]] (section 4.2); Python's [%]
    raises on an empty palette. *)
Definition cycle_color (color_sequence : list (list Q)) (i : Z) : result (list Q) :=
  match color_sequence !! Z.to_nat (i mod Z.of_nat (length color_sequence)) with
  | Some color => Ok color
  | None => Raise (ZeroDivisionError "integer modulo by zero")
  end.

(** Modelled from the spec: [stepstones.build_random_stepstones], absent from
    the sources. Section 4.2: a source of randomness seeded with
    [random_seed]; for each stone in increasing index a length, a gap and a
    height offset drawn in this order, uniformly from their ranges; the
    palette cycled; the handles returned in placement order. *)
Definition build_random_stepstones (pybullet_client : option client) (start_pos : vec3)
    (num_stones : Z) (stone_height stone_width : Q)
    (stone_length_lower_bound stone_length_upper_bound : Q)
    (gap_length_lower_bound gap_length_upper_bound : Q)
    (height_offset_lower_bound height_offset_upper_bound : Q)
    (random_seed : option Z) (color_sequence : list (list Q))
  : M (World G) (vec3 * list Z) :=
  random_generator <- seeded random_seed ;;
  acc <- for_fold (py_range num_stones) (fun i acc =>
      let '(end_pos, ids, generator) := acc in
      let '(r1, generator) :=
        uniform stone_length_lower_bound stone_length_upper_bound generator in
      stone_length <- lift_result r1 ;;
      let '(r2, generator) :=
        uniform gap_length_lower_bound gap_length_upper_bound generator in
      gap_length <- lift_result r2 ;;
      let '(r3, generator) :=
        uniform height_offset_lower_bound height_offset_upper_bound generator in
      height_offset <- lift_result r3 ;;
      color <- lift_result (cycle_color color_sequence i) ;;
      stone <- in_engine (build_one_stepstone pybullet_client end_pos stone_length
                            stone_height stone_width gap_length height_offset color) ;;
      ret (fst stone, ids ++ [snd stone], generator))
    (start_pos, [], random_generator) ;;
  ret (fst (fst acc), snd (fst acc)).

End Stepstones.
End stepstones.

(** ** [stepstone_terrain.py]: class [RandomStepstoneScene] *)

Module RandomStepstoneScene.

(** The arguments of the constructor. *)
Record Args : Type := {
  num_stones : Z;
  stone_height : Q;
  stone_width_lower_bound : Q;
  stone_width_upper_bound : Q;
  stone_length_lower_bound : Q;
  stone_length_upper_bound : Q;
  gap_length_lower_bound : Q;
  gap_length_upper_bound : Q;
  height_offset_lower_bound : Q;
  height_offset_upper_bound : Q;
  floor_height_lower_bound : Q;
  floor_height_upper_bound : Q;
  platform_length_lower_bound : Q;
  platform_length_upper_bound : Q;
  random_seed : option Z;
  color_sequence : list (list Q);
  rebuild_scene_during_reset : bool
}.

(** The attributes assigned by the constructor (lines 82-98); no method
    assigns them again. *)
Record Settings : Type := {
  _num_stones : Z;
  _stone_height : Q;
  _stone_width_lower_bound : Q;
  _stone_width_upper_bound : Q;
  _stone_length_lower_bound : Q;
  _stone_length_upper_bound : Q;
  _gap_length_lower_bound : Q;
  _gap_length_upper_bound : Q;
  _height_offset_lower_bound : Q;
  _height_offset_upper_bound : Q;
  _floor_height_lower_bound : Q;
  _floor_height_upper_bound : Q;
  _platform_length_lower_bound : Q;
  _platform_length_upper_bound : Q;
  _random_seed : option Z;
  _color_sequence : list (list Q);
  _rebuild_scene_during_reset : bool
}.

(** The object: its settings and the four attributes that only
    [build_scene] assigns. [_pybullet_client] holds whatever was passed to
    [build_scene], [None] included. *)
Record Scene : Type := {
  settings : Settings;
  _pybullet_client : attr (option client);
  step_stones_ids : attr (list Z);
  _floor_height : attr Q;
  floor_id : attr Z
}.

Definition with__pybullet_client (v : option client) (s : Scene) : Scene :=
  {| settings := settings s; _pybullet_client := Some v;
     step_stones_ids := step_stones_ids s; _floor_height := _floor_height s;
     floor_id := floor_id s |}.

Definition with_step_stones_ids (v : list Z) (s : Scene) : Scene :=
  {| settings := settings s; _pybullet_client := _pybullet_client s;
     step_stones_ids := Some v; _floor_height := _floor_height s;
     floor_id := floor_id s |}.

Definition with__floor_height (v : Q) (s : Scene) : Scene :=
  {| settings := settings s; _pybullet_client := _pybullet_client s;
     step_stones_ids := step_stones_ids s; _floor_height := Some v;
     floor_id := floor_id s |}.

Definition with_floor_id (v : Z) (s : Scene) : Scene :=
  {| settings := settings s; _pybullet_client := _pybullet_client s;
     step_stones_ids := step_stones_ids s; _floor_height := _floor_height s;
     floor_id := Some v |}.

(** The defaults of the constructor (lines 23-39), the palette apart:
    [stepstones.MULTICOLOR] is a constant of the absent module. *)
Definition default_args (K : Palette) : Args :=
  {| num_stones := 10;
     stone_height := 5 # 100;
     stone_width_lower_bound := 2;
     stone_width_upper_bound := 3;
     stone_length_lower_bound := 1 # 10;
     stone_length_upper_bound := 3 # 10;
     gap_length_lower_bound := 1 # 10;
     gap_length_upper_bound := 3 # 10;
     height_offset_lower_bound := 0;
     height_offset_upper_bound := 1 # 1000000;
     floor_height_lower_bound := - (5 # 10);
     floor_height_upper_bound := - (55 # 100);
     platform_length_lower_bound := 75 # 100;
     platform_length_upper_bound := 1;
     random_seed := None;
     color_sequence := MULTICOLOR K;
     rebuild_scene_during_reset := true |}.

Section Methods.
Context {G : PRNG} {K : Palette}.

(** The attributes that [__init__] assigns (lines 82-98); those that only
    [build_scene] assigns do not exist yet. *)
Definition assigned (a : Args) : Scene :=
  {| settings :=
       {| _num_stones := num_stones a;
          _stone_height := stone_height a;
          _stone_width_lower_bound := stone_width_lower_bound a;
          _stone_width_upper_bound := stone_width_upper_bound a;
          _stone_length_lower_bound := stone_length_lower_bound a;
          _stone_length_upper_bound := stone_length_upper_bound a;
          _gap_length_lower_bound := gap_length_lower_bound a;
          _gap_length_upper_bound := gap_length_upper_bound a;
          _height_offset_lower_bound := height_offset_lower_bound a;
          _height_offset_upper_bound := height_offset_upper_bound a;
          _floor_height_lower_bound := floor_height_lower_bound a;
          _floor_height_upper_bound := floor_height_upper_bound a;
          _platform_length_lower_bound := platform_length_lower_bound a;
          _platform_length_upper_bound := platform_length_upper_bound a;
          _random_seed := random_seed a;
          _color_sequence := color_sequence a;
          _rebuild_scene_during_reset := rebuild_scene_during_reset a |};
     _pybullet_client := None;
     step_stones_ids := None;
     _floor_height := None;
     floor_id := None |}.

(** [__init__] (lines 76-98). The message of the [ValueError] is kept
    without the formatted palette. *)
Definition __init__ (a : Args) : M (World G) Scene :=
  for_fold (color_sequence a) (fun color (_ : unit) =>
      if decide (length color ≠ 4%nat)
      then raise (ValueError "Each color must be length 4")
      else ret tt) tt ;;
  ret (assigned a).

(** [build_scene], lines 111-145: the platform stone and the random stones. *)
Definition build_scene_stones (pybullet_client : option client)
  : M (Scene * World G) unit :=
  set_self (with__pybullet_client pybullet_client) ;;
  self <- get_self ;;
  let cfg := settings self in
  stone_width <- in_world (in_np_random
      (uniform (_stone_width_lower_bound cfg) (_stone_width_upper_bound cfg))) ;;
  platform_length <- in_world (in_np_random
      (uniform (_platform_length_lower_bound cfg) (_platform_length_upper_bound cfg))) ;;
  first <- in_world (in_engine
      (stepstones.build_one_stepstone pybullet_client
         (- platform_length / 2, 0, 0)%Q
         platform_length (_stone_height cfg) stone_width 0 0 (GRAY K))) ;;
  let '(end_pos, first_stone_id) := first in
  rest <- in_world
      (stepstones.build_random_stepstones pybullet_client end_pos
         (_num_stones cfg) (_stone_height cfg) stone_width
         (_stone_length_lower_bound cfg) (_stone_length_upper_bound cfg)
         (_gap_length_lower_bound cfg) (_gap_length_upper_bound cfg)
         (_height_offset_lower_bound cfg) (_height_offset_upper_bound cfg)
         (_random_seed cfg) (_color_sequence cfg)) ;;
  let '(_, stepstone_ids) := rest in
  set_self (with_step_stones_ids (map (fun sid => first_stone_id + sid) stepstone_ids)).

(** [build_scene], lines 150-160: the floor. *)
Definition build_scene_floor (pybullet_client : option client)
  : M (Scene * World G) unit :=
  self <- get_self ;;
  let cfg := settings self in
  floor_height <- in_world (in_np_random
      (uniform (_floor_height_lower_bound cfg) (_floor_height_upper_bound cfg))) ;;
  set_self (with__floor_height floor_height) ;;
  floor_id <- in_world (in_engine
      (stepstones.load_box pybullet_client (100, 100, 1)%Q
         (0, 0, floor_height - 1)%Q (0, 0, 0, 1)%Q [1; 1; 1; 1]%Q 0)) ;;
  set_self (with_floor_id floor_id).

(** [build_scene] (lines 109-160) *)
Definition build_scene (pybullet_client : option client) : M (Scene * World G) unit :=
  build_scene_stones pybullet_client ;;
  build_scene_floor pybullet_client.

(** [reset] (lines 100-107); [env] is the environment of the world. *)
Definition reset : M (Scene * World G) unit :=
  self <- get_self ;;
  (if _rebuild_scene_during_reset (settings self)
   then
     pybullet_client <- lift_result (getattr "_pybullet_client" (_pybullet_client self)) ;;
     build_scene pybullet_client
   else ret tt) ;;
  self <- get_self ;;
  floor_id <- lift_result (getattr "floor_id" (floor_id self)) ;;
  in_world (set_ground floor_id).

(** The property [pybullet_client] (lines 162-166) *)
Definition pybullet_client (self : Scene) : result client :=
  match getattr "_pybullet_client" (_pybullet_client self) with
  | Raise e => Raise e
  | Ok None => Raise (ValueError "pybullet_client is None; did you call build_scene()?")
  | Ok (Some c) => Ok c
  end.

(** The property [ground_height] (lines 168-171) *)
Definition ground_height (self : Scene) : result Q := Ok 0%Q.

End Methods.
End RandomStepstoneScene.

(** ** [random_heightfiled_terrain.py]: class [RandomHeightFieldTerrain] *)

Module RandomHeightFieldTerrain.

Record Args : Type := {
  num_rows : Z;
  num_columns : Z;
  height_range : Q;
  random_seed : option Z;
  color_sequence : list (list Q);
  rebuild_scene_during_reset : bool
}.

Record Scene : Type := {
  _num_rows : Z;
  _num_columns : Z;
  _height_range : Q;
  _random_seed : option Z;
  _color_sequence : list (list Q);
  _rebuild_scene_during_reset : bool;
  _pybullet_client : attr (option client);
  floor_id : attr Z
}.

Definition with__pybullet_client (v : option client) (s : Scene) : Scene :=
  {| _num_rows := _num_rows s; _num_columns := _num_columns s;
     _height_range := _height_range s; _random_seed := _random_seed s;
     _color_sequence := _color_sequence s;
     _rebuild_scene_during_reset := _rebuild_scene_during_reset s;
     _pybullet_client := Some v; floor_id := floor_id s |}.

Definition with_floor_id (v : Z) (s : Scene) : Scene :=
  {| _num_rows := _num_rows s; _num_columns := _num_columns s;
     _height_range := _height_range s; _random_seed := _random_seed s;
     _color_sequence := _color_sequence s;
     _rebuild_scene_during_reset := _rebuild_scene_during_reset s;
     _pybullet_client := _pybullet_client s; floor_id := Some v |}.

(** The defaults of the constructor (lines 22-27). *)
Definition default_args (K : Palette) : Args :=
  {| num_rows := 1024;
     num_columns := 128;
     height_range := 3 # 100;
     random_seed := Some 10;
     color_sequence := MULTICOLOR K;
     rebuild_scene_during_reset := true |}.

Section Methods.
Context {G : PRNG}.

(** The attributes that [__init__] assigns (lines 38-43); those that only
    [build_scene] assigns do not exist yet. *)
Definition assigned (a : Args) : Scene :=
  {| _num_rows := num_rows a;
     _num_columns := num_columns a;
     _height_range := height_range a;
     _random_seed := random_seed a;
     _color_sequence := color_sequence a;
     _rebuild_scene_during_reset := rebuild_scene_during_reset a;
     _pybullet_client := None;
     floor_id := None |}.

(** [__init__] (lines 20-43) *)
Definition __init__ (a : Args) : M (World G) Scene := ret (assigned a).

(** [build_scene] (lines 50-75) *)
Definition build_scene (pybullet_client : option client) : M (Scene * World G) unit :=
  set_self (with__pybullet_client pybullet_client) ;;
  self <- get_self ;;
  in_world (random_module_seed (_random_seed self)) ;;
  in_world (in_engine
      (configureDebugVisualizer pybullet_client COV_ENABLE_RENDERING 0)) ;;
  let heightfieldData :=
    py_list_mul (py_list_mul [0%Q] (_num_rows self)) (_num_columns self) in
  heightfieldData <- in_world (in_py_random
      (block_noise heightfieldData (_num_rows self) (_num_columns self)
         (_height_range self * 5)%Q)) ;;
  terrain_shape <- in_world (in_engine
      (createCollisionShape pybullet_client
         (GEOM_HEIGHTFIELD (2 # 100, 2 # 100, 1)%Q
            (inject_Z (_num_rows self - 1) / 2)%Q
            heightfieldData (_num_rows self) (_num_columns self)))) ;;
  terrain_id <- in_world (in_engine
      (createMultiBody pybullet_client 0 terrain_shape (0, 0, 0)%Q (0, 0, 0, 1)%Q)) ;;
  in_world (in_engine
      (resetBasePositionAndOrientation pybullet_client terrain_id
         (0, 0, 0)%Q (0, 0, 0, 1)%Q)) ;;
  set_self (with_floor_id terrain_id).

(** [reset] (lines 45-48); [env] is the environment of the world. *)
Definition reset : M (Scene * World G) unit :=
  self <- get_self ;;
  (if _rebuild_scene_during_reset self
   then
     pybullet_client <- lift_result (getattr "_pybullet_client" (_pybullet_client self)) ;;
     build_scene pybullet_client
   else ret tt) ;;
  self <- get_self ;;
  floor_id <- lift_result (getattr "floor_id" (floor_id self)) ;;
  in_world (set_ground floor_id).

(** The property [pybullet_client] (lines 77-81) *)
Definition pybullet_client (self : Scene) : result client :=
  match getattr "_pybullet_client" (_pybullet_client self) with
  | Raise e => Raise e
  | Ok None => Raise (ValueError "pybullet_client is None; did you call build_scene()?")
  | Ok (Some c) => Ok c
  end.

(** The property [ground_height] (lines 83-86) *)
Definition ground_height (self : Scene) : result Q := Ok 0%Q.

End Methods.
End RandomHeightFieldTerrain.

(** ** [plane_terrain.py]: class [Terrain] *)

Module Terrain.

(** What the module binds at its top level (lines 2-19): the imports
    [pybullet as p] and [random], the two dictionaries and the class. *)
Inductive global : Type :=
| PybulletModule
| RandomModule
| Dictionary
| TerrainClass.

Definition module_globals : list (string * global) :=
  [("p", PybulletModule); ("random", RandomModule);
   ("FLAG_TO_FILENAME", Dictionary); ("ROBOT_INIT_POSITION", Dictionary);
   ("Terrain", TerrainClass)]%string.

(** Reading a global name; a name bound nowhere raises [NameError] (none of
    Python's built-in names is at stake here). *)
Fixpoint load_name (name : string) (bound : list (string * global)) : result global :=
  match bound with
  | [] => Raise (NameError name)
  | (n, v) :: bound' => if String.eqb n name then Ok v else load_name name bound'
  end.

(** [v.getDataPath()]: none of the objects bound in the module has such an
    attribute. *)
Definition getDataPath (v : global) : result string :=
  Raise (AttributeError "getDataPath").

Record Obj : Type := {
  terrain_source : string;
  terrain_id : string;
  columns : Z;
  rows : Z;
  terrain_shape : attr Z
}.

Definition with_terrain_shape (v : Z) (t : Obj) : Obj :=
  {| terrain_source := terrain_source t; terrain_id := terrain_id t;
     columns := columns t; rows := rows t; terrain_shape := Some v |}.

Section Methods.
Context {G : PRNG}.

(** [__init__] (lines 21-26) *)
Definition __init__ (terrain_source terrain_id : string) (columns rows : Z)
  : M (World G) Obj :=
  random_module_seed (Some 10) ;;
  ret {| terrain_source := terrain_source; terrain_id := terrain_id;
         columns := columns; rows := rows; terrain_shape := None |}.

(** [generate_terrain], line 29. The callee
    [env.pybullet_client.setAdditionalSearchPath] is evaluated before its
    argument [pd.getDataPath()]. *)
Definition generate_terrain_line_29 : M (Obj * World G) unit :=
  pybullet_client <- in_world (gets env_pybullet_client) ;;
  pd <- lift_result (load_name "pd" module_globals) ;;
  path <- lift_result (getDataPath pd) ;;
  in_world (in_engine (setAdditionalSearchPath (Some pybullet_client) path)).

(** [generate_terrain], lines 30-53. When [terrain_source] is not
    ['random'], line 52 reads a local variable never assigned. *)
Definition generate_terrain_from_line_30 (height_perturbation_range : Q)
  : M (Obj * World G) unit :=
  pybullet_client <- in_world (gets env_pybullet_client) ;;
  let pybullet_client := Some pybullet_client in
  in_world (in_engine
      (configureDebugVisualizer pybullet_client COV_ENABLE_RENDERING 0)) ;;
  self <- get_self ;;
  let terrain_data := py_list_mul (py_list_mul [0%Q] (columns self)) (rows self) in
  if String.eqb (terrain_source self) "random"
  then
    terrain_data <- in_world (in_py_random
        (block_noise terrain_data (rows self) (columns self)
           height_perturbation_range)) ;;
    terrain_shape <- in_world (in_engine
        (createCollisionShape pybullet_client
           (GEOM_HEIGHTFIELD (5 # 100, 5 # 100, 1)%Q
              (inject_Z (rows self - 1) / 2)%Q
              terrain_data (rows self) (columns self)))) ;;
    terrain <- in_world (in_engine
        (createMultiBody pybullet_client 0 terrain_shape (0, 0, 0)%Q (0, 0, 0, 1)%Q)) ;;
    in_world (in_engine
        (resetBasePositionAndOrientation pybullet_client terrain
           (0, 0, 0)%Q (0, 0, 0, 1)%Q)) ;;
    set_self (with_terrain_shape terrain_shape) ;;
    in_world (in_engine
        (changeVisualShape pybullet_client terrain (-1) [1; 1; 1; 1]%Q))
  else raise (UnboundLocalError "terrain_shape").

(** [generate_terrain] (lines 28-53) *)
Definition generate_terrain (height_perturbation_range : Q) : M (Obj * World G) unit :=
  generate_terrain_line_29 ;;
  generate_terrain_from_line_30 height_perturbation_range.

End Methods.
End Terrain.

(** ** A concrete generator, palette and world

    The properties below hold for every generator; examples are run with a
    linear congruential one. *)

Definition lcg : PRNG :=
  {| gen_state := Z;
     gen_seed := fun n => n mod 2 ^ 64;
     gen_next := fun s =>
       let s' := (6364136223846793005 * s + 1442695040888963407) mod 2 ^ 64 in
       (s' mod 2 ^ 53, s');
     gen_next_range := fun s => Z.mod_pos_bound _ (2 ^ 53) eq_refl |}.

Definition two_colors : Palette :=
  {| GRAY := [3 # 10; 3 # 10; 3 # 10; 1]%Q;
     MULTICOLOR := [[1; 0; 0; 1]; [0; 1; 0; 1]]%Q |}.

(** A world whose engine has already handed out [bodies] body identifiers
    and whose two generators are in the states [py] and [np]. *)
Definition sample_world (py np : Z) (bodies : Z) : World lcg :=
  {| py_random := py : gen_state lcg;
     np_random := np : gen_state lcg;
     os_entropy := fun n => Z.of_nat n;
     os_reads := 0;
     engine := {| calls := []; next_shape := 0; next_body := bodies |};
     env_pybullet_client := BulletClient 0;
     env_ground := None |}.

(** An argument record of [RandomStepstoneScene]: the defaults with the
    number of stones, the seed and the palette replaced. *)
Definition stepstone_args (n : Z) (seed : option Z) (palette : list (list Q))
  : RandomStepstoneScene.Args :=
  let d := RandomStepstoneScene.default_args two_colors in
  {| RandomStepstoneScene.num_stones := n;
     RandomStepstoneScene.stone_height := RandomStepstoneScene.stone_height d;
     RandomStepstoneScene.stone_width_lower_bound :=
       RandomStepstoneScene.stone_width_lower_bound d;
     RandomStepstoneScene.stone_width_upper_bound :=
       RandomStepstoneScene.stone_width_upper_bound d;
     RandomStepstoneScene.stone_length_lower_bound :=
       RandomStepstoneScene.stone_length_lower_bound d;
     RandomStepstoneScene.stone_length_upper_bound :=
       RandomStepstoneScene.stone_length_upper_bound d;
     RandomStepstoneScene.gap_length_lower_bound :=
       RandomStepstoneScene.gap_length_lower_bound d;
     RandomStepstoneScene.gap_length_upper_bound :=
       RandomStepstoneScene.gap_length_upper_bound d;
     RandomStepstoneScene.height_offset_lower_bound :=
       RandomStepstoneScene.height_offset_lower_bound d;
     RandomStepstoneScene.height_offset_upper_bound :=
       RandomStepstoneScene.height_offset_upper_bound d;
     RandomStepstoneScene.floor_height_lower_bound :=
       RandomStepstoneScene.floor_height_lower_bound d;
     RandomStepstoneScene.floor_height_upper_bound :=
       RandomStepstoneScene.floor_height_upper_bound d;
     RandomStepstoneScene.platform_length_lower_bound :=
       RandomStepstoneScene.platform_length_lower_bound d;
     RandomStepstoneScene.platform_length_upper_bound :=
       RandomStepstoneScene.platform_length_upper_bound d;
     RandomStepstoneScene.random_seed := seed;
     RandomStepstoneScene.color_sequence := palette;
     RandomStepstoneScene.rebuild_scene_during_reset := false |}.

(** A stepstone scene with three stones and seed 7, as constructed. *)
Definition three_stones : RandomStepstoneScene.Scene :=
  RandomStepstoneScene.assigned (stepstone_args 3 (Some 7) (MULTICOLOR two_colors)).

(** A 4x4 heightfield scene with seed 10 and no rebuild on reset. *)
Definition small_heightfield_args : RandomHeightFieldTerrain.Args :=
  {| RandomHeightFieldTerrain.num_rows := 4;
     RandomHeightFieldTerrain.num_columns := 4;
     RandomHeightFieldTerrain.height_range := 3 # 100;
     RandomHeightFieldTerrain.random_seed := Some 10;
     RandomHeightFieldTerrain.color_sequence := MULTICOLOR two_colors;
     RandomHeightFieldTerrain.rebuild_scene_during_reset := false |}.

Definition small_heightfield : RandomHeightFieldTerrain.Scene :=
  RandomHeightFieldTerrain.assigned small_heightfield_args.

(** A 4x4 terrain of [plane_terrain.py] with the source ['random']. *)
Definition small_terrain : Terrain.Obj :=
  {| Terrain.terrain_source := "random";
     Terrain.terrain_id := "random";
     Terrain.columns := 4;
     Terrain.rows := 4;
     Terrain.terrain_shape := None |}.

(** The two scenes above, built. *)
Abbreviation three_stones_run :=
  (RandomStepstoneScene.build_scene (G := lcg) (K := two_colors)
     (Some (BulletClient 0)) (three_stones, sample_world 1 2 1)).

Abbreviation small_heightfield_run :=
  (RandomHeightFieldTerrain.build_scene (G := lcg)
     (Some (BulletClient 0)) (small_heightfield, sample_world 1 2 0)).

(** ** The boxes of a stepstone course

    The boxes that a stepstone scene has the engine create, as functions of
    the numbers drawn, and the calls that submit them, given the two handles
    the engine hands out next. *)

(** A static box: half-extents, position of the centre, colour. *)
Definition box : Type := vec3 * vec3 * list Q.

(** The three calls by which [stepstones.load_box] submits one box of mass 0
    when the engine answers with the handles [shape] and [body]. *)
Definition box_calls (b : box) (shape body : Z) : list engine_call :=
  let '(half_extents, position, rgba_color) := b in
  [CreateCollisionShape (GEOM_BOX half_extents) shape;
   CreateMultiBody 0 shape position (0, 0, 0, 1)%Q body;
   ChangeVisualShape body (-1) rgba_color].

(** The calls that submit the boxes of a list one after the other, the
    engine handing out consecutive handles from [shape] and [body] on. *)
Fixpoint submit_boxes (boxes : list box) (shape body : Z) : list engine_call :=
  match boxes with
  | [] => []
  | b :: rest => box_calls b shape body ++ submit_boxes rest (shape + 1) (body + 1)
  end.

(** The box of the stone of length, gap and height offset [stone], placed
    from the cursor [start_pos]. *)
Definition stone_box (start_pos : vec3) (stone : Q * Q * Q)
    (stone_height stone_width : Q) (rgba_color : list Q) : box :=
  let '(x, y, z) := start_pos in
  let '(stone_length, gap_length, height_offset) := stone in
  ((stone_length / 2, stone_width / 2, stone_height / 2)%Q,
   (x + gap_length, y, z + height_offset)%Q,
   rgba_color).

(** The cursor past that stone. *)
Definition past_stone (start_pos : vec3) (stone : Q * Q * Q) : vec3 :=
  let '(x, y, z) := start_pos in
  let '(stone_length, gap_length, _) := stone in
  (x + gap_length + stone_length, y, z)%Q.

(** The palette entry of stone [i]. *)
Definition stone_color (color_sequence : list (list Q)) (i : Z) : list Q :=
  default [] (color_sequence !! Z.to_nat (i mod Z.of_nat (length color_sequence))).

(** The boxes of the stones of a list, the first with index [i], placed one
    after the other from the cursor. *)
Fixpoint stone_boxes (stones : list (Q * Q * Q)) (start_pos : vec3) (i : Z)
    (stone_height stone_width : Q) (color_sequence : list (list Q)) : list box :=
  match stones with
  | [] => []
  | stone :: rest =>
      stone_box start_pos stone stone_height stone_width (stone_color color_sequence i)
      :: stone_boxes rest (past_stone start_pos stone) (i + 1)
           stone_height stone_width color_sequence
  end.

Section Draws.
Context {G : PRNG}.

(** Length, gap and height offset of one stone, drawn in this order from
    the generator in state [g], and the state after the three draws. *)
Definition stone_draw (g : gen_state G) (llb lub glb gub olb oub : Q)
  : (Q * Q * Q) * gen_state G :=
  let '(k1, g1) := gen_next G g in
  let '(k2, g2) := gen_next G g1 in
  let '(k3, g3) := gen_next G g2 in
  ((llb + (lub - llb) * (k1 # two53),
    glb + (gub - glb) * (k2 # two53),
    olb + (oub - olb) * (k3 # two53))%Q, g3).

(** The same for [n] stones, one after the other. *)
Fixpoint stone_draws (n : nat) (g : gen_state G) (llb lub glb gub olb oub : Q)
  : list (Q * Q * Q) :=
  match n with
  | O => []
  | S n' =>
      let '(stone, g') := stone_draw g llb lub glb gub olb oub in
      stone :: stone_draws n' g' llb lub glb gub olb oub
  end.

(** Length, gap and height offset of the random stones of a
    [RandomStepstoneScene] with the settings [cfg] and the seed [seed]: a
    function of the settings and of the seed, and of nothing else. *)
Definition seeded_stones (cfg : RandomStepstoneScene.Settings) (seed : Z)
  : list (Q * Q * Q) :=
  stone_draws (Z.to_nat (RandomStepstoneScene._num_stones cfg)) (gen_seed G seed)
    (RandomStepstoneScene._stone_length_lower_bound cfg)
    (RandomStepstoneScene._stone_length_upper_bound cfg)
    (RandomStepstoneScene._gap_length_lower_bound cfg)
    (RandomStepstoneScene._gap_length_upper_bound cfg)
    (RandomStepstoneScene._height_offset_lower_bound cfg)
    (RandomStepstoneScene._height_offset_upper_bound cfg).

(** Stone width, platform length and floor height of a build that finds
    [numpy.random] in the state [s]: a function of the settings and of that
    state, and of nothing else. *)
Definition numpy_draws (cfg : RandomStepstoneScene.Settings) (s : gen_state G)
  : Q * Q * Q :=
  let '(k1, s1) := gen_next G s in
  let '(k2, s2) := gen_next G s1 in
  let '(k3, _) := gen_next G s2 in
  ((RandomStepstoneScene._stone_width_lower_bound cfg
    + (RandomStepstoneScene._stone_width_upper_bound cfg
       - RandomStepstoneScene._stone_width_lower_bound cfg) * (k1 # two53),
    RandomStepstoneScene._platform_length_lower_bound cfg
    + (RandomStepstoneScene._platform_length_upper_bound cfg
       - RandomStepstoneScene._platform_length_lower_bound cfg) * (k2 # two53),
    RandomStepstoneScene._floor_height_lower_bound cfg
    + (RandomStepstoneScene._floor_height_upper_bound cfg
       - RandomStepstoneScene._floor_height_lower_bound cfg) * (k3 # two53))%Q).

End Draws.
Arguments seeded_stones G cfg seed : clear implicits.

(** The boxes of one build of a stepstone scene, in the order of their
    creation: the platform, the stones and the floor, for the stone width,
    platform length and floor height [drawn] and the random stones
    [stones]. *)
Definition course_boxes (cfg : RandomStepstoneScene.Settings) (K : Palette)
    (drawn : Q * Q * Q) (stones : list (Q * Q * Q)) : list box :=
  let '(stone_width, platform_length, floor_height) := drawn in
  let start_pos := (- platform_length / 2, 0, 0)%Q in
  let platform := (platform_length, 0, 0)%Q in
  stone_box start_pos platform (RandomStepstoneScene._stone_height cfg) stone_width
    (GRAY K)
  :: stone_boxes stones (past_stone start_pos platform) 0
       (RandomStepstoneScene._stone_height cfg) stone_width
       (RandomStepstoneScene._color_sequence cfg)
  ++ [((100, 100, 1)%Q, (0, 0, floor_height - 1)%Q, [1; 1; 1; 1]%Q)].

(** ** Counting draws *)

(** The state of a generator after [n] draws. *)
Fixpoint gen_iter {G : PRNG} (n : nat) (s : gen_state G) : gen_state G :=
  match n with
  | O => s
  | S n' => snd (gen_next G (gen_iter n' s))
  end.

(** What the call of [random()] number [n] (from 0) returns, counted from
    the state [s]. *)
Definition nth_draw {G : PRNG} (n : nat) (s : gen_state G) : Q :=
  (fst (gen_next G (gen_iter n s)) # two53)%Q.

(** A 3x5 heightfield scene with seed 10 that rebuilds on reset. *)
Definition odd_heightfield : RandomHeightFieldTerrain.Scene :=
  RandomHeightFieldTerrain.assigned
    {| RandomHeightFieldTerrain.num_rows := 3;
       RandomHeightFieldTerrain.num_columns := 5;
       RandomHeightFieldTerrain.height_range := 3 # 100;
       RandomHeightFieldTerrain.random_seed := Some 10;
       RandomHeightFieldTerrain.color_sequence := MULTICOLOR two_colors;
       RandomHeightFieldTerrain.rebuild_scene_during_reset := true |}.

Abbreviation odd_heightfield_run :=
  (RandomHeightFieldTerrain.build_scene (G := lcg)
     (Some (BulletClient 0)) (odd_heightfield, sample_world 1 2 0)).


(** A 2x2 heightfield scene with seed 10 and the height range 0. *)
Definition flat_heightfield : RandomHeightFieldTerrain.Scene :=
  RandomHeightFieldTerrain.assigned
    {| RandomHeightFieldTerrain.num_rows := 2;
       RandomHeightFieldTerrain.num_columns := 2;
       RandomHeightFieldTerrain.height_range := 0;
       RandomHeightFieldTerrain.random_seed := Some 10;
       RandomHeightFieldTerrain.color_sequence := MULTICOLOR two_colors;
       RandomHeightFieldTerrain.rebuild_scene_during_reset := true |}.

Abbreviation flat_heightfield_run :=
  (RandomHeightFieldTerrain.build_scene (G := lcg)
     (Some (BulletClient 0)) (flat_heightfield, sample_world 1 2 0)).

(** A 4x4 terrain of [plane_terrain.py] with the source ['mounts']. *)
Definition mounts_terrain : Terrain.Obj :=
  {| Terrain.terrain_source := "mounts";
     Terrain.terrain_id := "mounts";
     Terrain.columns := 4;
     Terrain.rows := 4;
     Terrain.terrain_shape := None |}.

(** * Properties *)

(** ** The monad *)

Section MonadLemmas.
Context {S A B : Type}.

Lemma bind_ok (m : M S A) (k : A -> M S B) s a s' :
  m s = (Ok a, s') -> bind m k s = k a s'.
Proof. intros H. unfold bind. now rewrite H. Qed.

Lemma bind_raise (m : M S A) (k : A -> M S B) s e s' :
  m s = (Raise e, s') -> bind m k s = (Raise e, s').
Proof. intros H. unfold bind. now rewrite H. Qed.

Lemma bind_ok_inv (m : M S A) (k : A -> M S B) s b s2 :
  bind m k s = (Ok b, s2) -> exists a s1, m s = (Ok a, s1) /\ k a s1 = (Ok b, s2).
Proof.
  unfold bind. destruct (m s) as [[a|e] s1]; intros H.
  - eauto.
  - discriminate.
Qed.

End MonadLemmas.

(** ** [plane_terrain.py] *)

(** C9: for every terrain object, every world and every perturbation range,
    [Terrain.generate_terrain] raises [NameError] for the name [pd] at its
    first statement: neither the object nor the world has changed, so no
    terrain datum was computed, no random number drawn and nothing sent to
    the engine. *)
Theorem generate_terrain_raises_NameError (G : PRNG) (self : Terrain.Obj)
    (w : World G) (height_perturbation_range : Q) :
  Terrain.generate_terrain height_perturbation_range (self, w)
  = (Raise (NameError "pd"), (self, w)).
Proof. reflexivity. Qed.

(** C10: whatever the arguments and whatever the world before, constructing
    a [Terrain] leaves the generator of the module [random] in the state
    that seeding with 10 gives; two constructions therefore leave it in the
    same state. *)
Theorem Terrain_init_reseeds_with_10 (G : PRNG)
    (source1 id1 : string) (columns1 rows1 : Z) (w1 : World G)
    (source2 id2 : string) (columns2 rows2 : Z) (w2 : World G) :
  py_random (snd (Terrain.__init__ source1 id1 columns1 rows1 w1)) = gen_seed G 10
  /\ py_random (snd (Terrain.__init__ source1 id1 columns1 rows1 w1))
     = py_random (snd (Terrain.__init__ source2 id2 columns2 rows2 w2)).
Proof. split; reflexivity. Qed.

(** ** Construction of a [RandomStepstoneScene] *)

Section PaletteCheck.
Context {G : PRNG}.

Let check : list Q -> unit -> M (World G) unit :=
  fun color _ =>
    if decide (length color ≠ 4%nat)
    then raise (ValueError "Each color must be length 4")
    else ret tt.

Lemma palette_check_ok (palette : list (list Q)) (w : World G) :
  Forall (fun color => length color = 4%nat) palette ->
  for_fold palette check tt w = (Ok tt, w).
Proof.
  induction 1 as [|color palette Hc _ IH]; [reflexivity|].
  simpl. unfold bind, check at 1.
  destruct (decide (length color ≠ 4%nat)) as [Hn|_]; [contradiction|].
  simpl. exact IH.
Qed.

Lemma palette_check_raise (palette : list (list Q)) (w : World G) :
  Exists (fun color => length color ≠ 4%nat) palette ->
  for_fold palette check tt w
  = (Raise (ValueError "Each color must be length 4"), w).
Proof.
  induction palette as [|color palette IH]; intros H.
  - inversion H.
  - simpl. unfold bind, check at 1.
    destruct (decide (length color ≠ 4%nat)) as [Hn|Hn]; [reflexivity|].
    simpl. apply IH. inversion H; subst; [contradiction|assumption].
Qed.

End PaletteCheck.

(** C3 (as amended): the constructor of [RandomStepstoneScene] raises
    [ValueError] exactly when some colour of the palette does not have four
    components, and constructs the scene otherwise, whatever the values of
    the components; in both cases the world is left as it was: no random
    number has been drawn and no engine call made. *)
Theorem stepstone_init_checks_color_lengths (G : PRNG)
    (a : RandomStepstoneScene.Args) (w : World G) :
  (Exists (fun color => length color ≠ 4%nat) (RandomStepstoneScene.color_sequence a) ->
   RandomStepstoneScene.__init__ a w
   = (Raise (ValueError "Each color must be length 4"), w))
  /\ (Forall (fun color => length color = 4%nat) (RandomStepstoneScene.color_sequence a) ->
      RandomStepstoneScene.__init__ a w = (Ok (RandomStepstoneScene.assigned a), w)).
Proof.
  unfold RandomStepstoneScene.__init__. split; intros H.
  - erewrite bind_raise; [reflexivity|]. now apply palette_check_raise.
  - erewrite bind_ok; [|now apply palette_check_ok]. reflexivity.
Qed.

(** C3, counterexample: a palette whose only colour has the component 2,
    outside [[0, 1]], is accepted: the constructor raises nothing. *)
Lemma stepstone_init_accepts_component_out_of_range :
  let a := stepstone_args 3 (Some 7) [[2; 0; 0; 1]%Q] in
  Exists (fun color => Exists (fun x => ~ (0 <= x <= 1)%Q) color)
    (RandomStepstoneScene.color_sequence a)
  /\ ~ is_raise (fst (RandomStepstoneScene.__init__ a (sample_world 1 2 1))).
Proof.
  split.
  - apply Exists_cons_hd, Exists_cons_hd. intros [_ H]. now apply H.
  - simpl. tauto.
Qed.

(** ** Loops *)

Section ForFold.
Context {St A B : Type}.

(** A loop whose body never raises and steps an invariant from one
    position of the list to the next runs to its end. *)
Lemma for_fold_invariant (I : nat -> B -> St -> Prop) (l : list A)
    (body : A -> B -> M St B) :
  (forall n x acc s, l !! n = Some x -> I n acc s ->
     exists acc' s', body x acc s = (Ok acc', s') /\ I (S n) acc' s') ->
  forall acc s, I 0%nat acc s ->
  exists acc' s', for_fold l body acc s = (Ok acc', s') /\ I (length l) acc' s'.
Proof.
  revert I. induction l as [|x l IH]; intros I Hstep acc s H0.
  - exists acc, s. split; [reflexivity|exact H0].
  - destruct (Hstep 0%nat x acc s eq_refl H0) as (acc1 & s1 & Hbody & H1).
    simpl. rewrite (bind_ok _ _ _ _ _ Hbody).
    apply (IH (fun n => I (S n))); [|exact H1].
    intros n y acc2 s2 Hy. apply (Hstep (S n)). exact Hy.
Qed.

End ForFold.

(** ** Lists as Python uses them *)

Lemma length_py_list_mul {A} (l : list A) (n : Z) :
  length (py_list_mul l n) = (Z.to_nat n * length l)%nat.
Proof.
  unfold py_list_mul. induction (Z.to_nat n) as [|k IH]; [reflexivity|].
  simpl. rewrite length_app, IH. reflexivity.
Qed.

Lemma Forall_py_list_mul {A} (P : A -> Prop) (l : list A) (n : Z) :
  Forall P l -> Forall P (py_list_mul l n).
Proof.
  intros H. unfold py_list_mul. apply Forall_join, Forall_replicate, H.
Qed.

Lemma setitem_ok {A} (l : list A) (i : Z) (v : A) :
  0 <= i < Z.of_nat (length l) ->
  setitem l i v = Ok (<[Z.to_nat i := v]> l).
Proof.
  intros H. unfold setitem. destruct (decide _) as [_|Hn]; [reflexivity|].
  contradiction.
Qed.

Lemma lookup_insert_same {A} (l : list A) (i p : nat) (v : A) :
  l !! p = Some v -> <[i := v]> l !! p = Some v.
Proof.
  intros H. rewrite list_lookup_insert. destruct (decide _); [reflexivity|exact H].
Qed.

Lemma int_half_bound (i n : Z) : 0 <= i < int_half n <-> 0 <= i /\ 2 * i + 1 < n.
Proof. unfold int_half. Z.to_euclidean_division_equations. lia. Qed.

(** ** The block noise loop *)

Lemma block_cells_disjoint (rows i j i' j' : Z) (p : nat) :
  0 <= i -> 2*i + 1 < rows -> 0 <= j ->
  0 <= i' -> 2*i' + 1 < rows -> 0 <= j' ->
  i ≠ i' \/ j ≠ j' ->
  p ∈ block_cells rows i j -> p ∉ block_cells rows i' j'.
Proof.
  intros Hi Hr Hj Hi' Hr' Hj' Hne Hp Hp'.
  unfold block_cells in *.
  repeat (rewrite elem_of_cons in Hp). rewrite elem_of_nil in Hp.
  repeat (rewrite elem_of_cons in Hp'). rewrite elem_of_nil in Hp'.
  pose proof Z2Nat.inj as Hinj.
  destruct Hp as [->|[->|[->|[->|[]]]]];
    destruct Hp' as [Hp'|[Hp'|[Hp'|[Hp'|[]]]]];
    apply Hinj in Hp'; try nia;
    destruct (Z.lt_trichotomy j j') as [Hlt|[->|Hlt]]; nia.
Qed.

Lemma same_height_frame (data data' : list Q) (rows i j : Z) :
  (forall p, p ∈ block_cells rows i j -> data' !! p = data !! p) ->
  same_height data rows i j -> same_height data' rows i j.
Proof.
  intros Hsame [h Hh]. exists h.
  rewrite Forall_forall in *. intros p Hp. rewrite Hsame by exact Hp. now apply Hh.
Qed.

Section BlockNoise.
Context {G : PRNG}.
Variables (rows columns : Z) (height_bound : Q).

(** [P] is any property that zero and every drawn height have. *)
Variable P : Q -> Prop.
Hypothesis P_draw :
  forall k, 0 <= k < 2 ^ 53 -> P (0 + (height_bound - 0) * (k # two53))%Q.

Let size : nat := (Z.to_nat columns * (Z.to_nat rows * 1))%nat.

Let write_block (j i : Z) (heightfieldData : list Q) : M (gen_state G) (list Q) :=
  height <- uniform 0 height_bound ;;
  d1 <- lift_result (setitem heightfieldData (2*i + 2*j*rows) height) ;;
  d2 <- lift_result (setitem d1 (2*i + 1 + 2*j*rows) height) ;;
  d3 <- lift_result (setitem d2 (2*i + (2*j + 1)*rows) height) ;;
  lift_result (setitem d3 (2*i + 1 + (2*j + 1)*rows) height).

Lemma write_block_spec (i j : Z) (d : list Q) (s : gen_state G) :
  0 <= i -> 2*i + 1 < rows -> 0 <= j -> 2*j + 1 < columns ->
  length d = size -> Forall P d ->
  exists d' s',
    write_block j i d s = (Ok d', s')
    /\ length d' = size /\ Forall P d'
    /\ (forall p, p ∉ block_cells rows i j -> d' !! p = d !! p)
    /\ same_height d' rows i j.
Proof.
  intros Hi Hr Hj Hc Hlen HP.
  assert (Z.of_nat (length d) = rows * columns) as HlenZ by (rewrite Hlen; subst size; nia).
  unfold write_block, uniform, random, bind, ret, lift_result.
  pose proof (gen_next_range G s) as Hk.
  destruct (gen_next G s) as [k s']. simpl in Hk.
  set (h := (0 + (height_bound - 0) * (k # two53))%Q).
  rewrite setitem_ok by nia.
  rewrite setitem_ok by (rewrite length_insert; nia).
  rewrite setitem_ok by (rewrite !length_insert; nia).
  rewrite setitem_ok by (rewrite !length_insert; nia).
  eexists _, _. split; [reflexivity|].
  assert (P h) as Hh by (apply P_draw, Hk).
  split; [now rewrite !length_insert|].
  split; [now repeat apply Forall_insert|].
  split.
  - intros p Hp. unfold block_cells in Hp.
    repeat (rewrite not_elem_of_cons in Hp). destruct Hp as (H1 & H2 & H3 & H4 & _).
    now rewrite !list_lookup_insert_ne by congruence.
  - exists h. unfold block_cells. repeat constructor.
    + do 3 apply lookup_insert_same. apply list_lookup_insert_eq. nia.
    + do 2 apply lookup_insert_same. apply list_lookup_insert_eq.
      rewrite length_insert. nia.
    + apply lookup_insert_same. apply list_lookup_insert_eq.
      rewrite !length_insert. nia.
    + apply list_lookup_insert_eq. rewrite !length_insert. nia.
Qed.

(** The inner loop, over the blocks of one pair of columns. *)
Lemma block_row_spec (j : Z) (d : list Q) (s : gen_state G) :
  0 <= j -> 2*j + 1 < columns ->
  length d = size -> Forall P d ->
  exists d' s',
    for_fold (py_range (int_half rows)) (write_block j) d s = (Ok d', s')
    /\ length d' = size /\ Forall P d'
    /\ (forall p, (forall i, 0 <= i < int_half rows -> p ∉ block_cells rows i j) ->
                  d' !! p = d !! p)
    /\ (forall i, 0 <= i < int_half rows -> same_height d' rows i j).
Proof.
  intros Hj Hc Hlen HP.
  destruct (for_fold_invariant
    (fun n d1 (_ : gen_state G) =>
       length d1 = size /\ Forall P d1
       /\ (forall p, (forall i, 0 <= i < Z.of_nat n -> p ∉ block_cells rows i j) ->
                     d1 !! p = d !! p)
       /\ (forall i, 0 <= i < Z.of_nat n -> same_height d1 rows i j))
    (py_range (int_half rows)) (write_block j)) with (acc := d) (s := s)
    as (d' & s' & Hrun & Hlen' & HP' & Hout & Hin).
  - intros n i d1 s1 Hn (Hlen1 & HP1 & Hout1 & Hin1).
    apply lookup_seqZ in Hn as [-> Hn].
    assert (0 <= 0 + Z.of_nat n < int_half rows) as [Hi0 Hr0]%int_half_bound by lia.
    destruct (write_block_spec _ j d1 s1 Hi0 Hr0 Hj Hc Hlen1 HP1)
      as (d2 & s2 & Hrun & Hlen2 & HP2 & Hout2 & Hin2).
    exists d2, s2. split; [exact Hrun|]. split; [exact Hlen2|]. split; [exact HP2|].
    split.
    + intros p Hp. rewrite Hout2 by (apply Hp; lia). apply Hout1.
      intros i Hi. apply Hp. lia.
    + intros i Hi. destruct (decide (i = 0 + Z.of_nat n)) as [->|Hne]; [exact Hin2|].
      apply (same_height_frame d1); [|apply Hin1; lia].
      intros p Hp. apply Hout2.
      assert (0 <= i < int_half rows) as [Hi1 Hr1]%int_half_bound by lia.
      apply (block_cells_disjoint rows i j _ j p); try lia. exact Hp.
  - repeat split; try assumption. intros i Hi. lia.
  - exists d', s'. unfold py_range in Hout, Hin. rewrite length_seqZ in Hout, Hin.
    split; [exact Hrun|]. split; [exact Hlen'|]. split; [exact HP'|]. split.
    + intros p Hp. apply Hout. intros i Hi. apply Hp. lia.
    + intros i Hi. apply Hin. lia.
Qed.

(** The whole loop: it never raises, keeps the size of the grid, and leaves
    every block with one height. *)
Lemma block_noise_spec (d : list Q) (s : gen_state G) :
  length d = size -> Forall P d ->
  exists d' s',
    block_noise d rows columns height_bound s = (Ok d', s')
    /\ length d' = size /\ Forall P d'
    /\ (forall i j, 0 <= i -> 2*i + 1 < rows -> 0 <= j -> 2*j + 1 < columns ->
                    same_height d' rows i j).
Proof.
  intros Hlen HP. unfold block_noise.
  destruct (for_fold_invariant
    (fun n d1 (_ : gen_state G) =>
       length d1 = size /\ Forall P d1
       /\ (forall i j, 0 <= i < int_half rows -> 0 <= j < Z.of_nat n ->
                       same_height d1 rows i j))
    (py_range (int_half columns))
    (fun j heightfieldData =>
       for_fold (py_range (int_half rows)) (write_block j) heightfieldData))
    with (acc := d) (s := s) as (d' & s' & Hrun & Hlen' & HP' & Hin).
  - intros n j d1 s1 Hn (Hlen1 & HP1 & Hin1).
    apply lookup_seqZ in Hn as [-> Hn].
    assert (0 <= 0 + Z.of_nat n < int_half columns) as [Hj0 Hc0]%int_half_bound by lia.
    destruct (block_row_spec _ d1 s1 Hj0 Hc0 Hlen1 HP1)
      as (d2 & s2 & Hrun & Hlen2 & HP2 & Hout2 & Hin2).
    exists d2, s2. split; [exact Hrun|]. split; [exact Hlen2|]. split; [exact HP2|].
    intros i j Hi Hjn.
    destruct (decide (j = 0 + Z.of_nat n)) as [->|Hne]; [now apply Hin2|].
    apply (same_height_frame d1); [|apply Hin1; lia].
    intros p Hp. apply Hout2. intros i' Hi'.
    apply int_half_bound in Hi as [Hi1 Hr1]. apply int_half_bound in Hi' as [Hi2 Hr2].
    apply (block_cells_disjoint rows i j i' _ p); try lia. exact Hp.
  - repeat split; try assumption. intros i j _ Hj. lia.
  - exists d', s'. unfold py_range in Hin. rewrite length_seqZ in Hin.
    split; [exact Hrun|]. split; [exact Hlen'|]. split; [exact HP'|].
    intros i j Hi Hr Hj Hc.
    assert (0 <= j < int_half columns) as Hjc by (apply int_half_bound; lia).
    apply Hin; [apply int_half_bound; lia|lia].
Qed.

End BlockNoise.

(** ** Building a heightfield *)

Lemma last_heightfield_after (e : Engine) (before after : list engine_call)
    (c : engine_call) (d : list Q) :
  calls e = before ++ c :: after ->
  heightfield_data c = Some d ->
  omap heightfield_data after = [] ->
  last_heightfield e = Some d.
Proof.
  intros Hcalls Hc Hafter. unfold last_heightfield.
  rewrite Hcalls. change (c :: after) with ([c] ++ after).
  rewrite !omap_app, Hafter, app_nil_r. simpl. rewrite Hc. apply last_snoc.
Qed.

Section HeightFieldBuild.
Context {G : PRNG}.
Import RandomHeightFieldTerrain.

Lemma heightfield_build_spec (P : Q -> Prop) (sc : Scene) (c : client) (w : World G) :
  P 0%Q ->
  (forall k, 0 <= k < 2 ^ 53 -> P (0 + (_height_range sc * 5 - 0) * (k # two53))%Q) ->
  exists data,
    fst (block_noise (py_list_mul (py_list_mul [0%Q] (_num_rows sc)) (_num_columns sc))
           (_num_rows sc) (_num_columns sc) (_height_range sc * 5)%Q
           (seeded_state (_random_seed sc) w)) = Ok data
    /\ fst (build_scene (Some c) (sc, w)) = Ok tt
    /\ last_heightfield (engine (snd (snd (build_scene (Some c) (sc, w))))) = Some data
    /\ floor_id (fst (snd (build_scene (Some c) (sc, w)))) = Some (next_body (engine w))
    /\ length data = (Z.to_nat (_num_columns sc) * (Z.to_nat (_num_rows sc) * 1))%nat
    /\ Forall P data
    /\ (forall i j, 0 <= i -> 2*i + 1 < _num_rows sc -> 0 <= j -> 2*j + 1 < _num_columns sc ->
                    same_height data (_num_rows sc) i j).
Proof.
  intros P0 Pdraw.
  destruct (block_noise_spec (_num_rows sc) (_num_columns sc) (_height_range sc * 5)%Q
              P Pdraw
              (py_list_mul (py_list_mul [0%Q] (_num_rows sc)) (_num_columns sc))
              (seeded_state (_random_seed sc) w))
    as (data & s' & Hrun & Hlen & HP & Hblocks).
  { now rewrite !length_py_list_mul. }
  { now apply Forall_py_list_mul, Forall_py_list_mul, Forall_cons. }
  exists data. rewrite Hrun. split; [reflexivity|].
  unfold build_scene, bind, set_self, get_self, in_world, in_engine, in_py_random,
    random_module_seed, seeded, zoom, modify, gets, ret, bind.
  simpl.
  destruct (_random_seed sc) as [n|]; simpl; unfold seeded_state in Hrun; rewrite Hrun; simpl.
  all: repeat split; try assumption.
  all: apply (last_heightfield_after _
         (calls (engine w) ++ [ConfigureDebugVisualizer COV_ENABLE_RENDERING 0])
         [CreateMultiBody 0 (next_shape (engine w)) (0, 0, 0)%Q (0, 0, 0, 1)%Q
            (next_body (engine w));
          ResetBasePositionAndOrientation (next_body (engine w))
            (0, 0, 0)%Q (0, 0, 0, 1)%Q]
         (CreateCollisionShape
            (GEOM_HEIGHTFIELD (2 # 100, 2 # 100, 1)%Q
               (inject_Z (_num_rows sc - 1) / 2)%Q data
               (_num_rows sc) (_num_columns sc))
            (next_shape (engine w))));
    [unfold log; simpl; now rewrite <- !app_assoc|reflexivity|reflexivity].
Qed.

End HeightFieldBuild.

Section TerrainBuild.
Context {G : PRNG}.
Import Terrain.

Lemma generate_terrain_rest_spec (P : Q -> Prop) (t : Obj) (w : World G) (range : Q) :
  terrain_source t = "random"%string ->
  P 0%Q ->
  (forall k, 0 <= k < 2 ^ 53 -> P (0 + (range - 0) * (k # two53))%Q) ->
  exists data,
    fst (block_noise (py_list_mul (py_list_mul [0%Q] (columns t)) (rows t))
           (rows t) (columns t) range (py_random w)) = Ok data
    /\ fst (generate_terrain_from_line_30 range (t, w)) = Ok tt
    /\ last_heightfield (engine (snd (snd (generate_terrain_from_line_30 range (t, w)))))
       = Some data
    /\ length data = (Z.to_nat (columns t) * (Z.to_nat (rows t) * 1))%nat
    /\ Forall P data
    /\ (forall i j, 0 <= i -> 2*i + 1 < rows t -> 0 <= j -> 2*j + 1 < columns t ->
                    same_height data (rows t) i j).
Proof.
  intros Hsrc P0 Pdraw.
  destruct (block_noise_spec (rows t) (columns t) range P Pdraw
              (py_list_mul (py_list_mul [0%Q] (columns t)) (rows t)) (py_random w))
    as (data & s' & Hrun & Hlen & HP & Hblocks).
  { rewrite !length_py_list_mul. simpl. lia. }
  { now apply Forall_py_list_mul, Forall_py_list_mul, Forall_cons. }
  exists data. rewrite Hrun. split; [reflexivity|].
  unfold generate_terrain_from_line_30, bind, set_self, get_self, in_world, in_engine,
    in_py_random, zoom, modify, gets, ret, bind.
  simpl. rewrite Hsrc. simpl. rewrite Hrun. simpl.
  repeat split; try assumption.
  apply (last_heightfield_after _
         (calls (engine w) ++ [ConfigureDebugVisualizer COV_ENABLE_RENDERING 0])
         [CreateMultiBody 0 (next_shape (engine w)) (0, 0, 0)%Q (0, 0, 0, 1)%Q
            (next_body (engine w));
          ResetBasePositionAndOrientation (next_body (engine w))
            (0, 0, 0)%Q (0, 0, 0, 1)%Q;
          ChangeVisualShape (next_body (engine w)) (-1) [1; 1; 1; 1]%Q]
         (CreateCollisionShape
            (GEOM_HEIGHTFIELD (5 # 100, 5 # 100, 1)%Q
               (inject_Z (rows t - 1) / 2)%Q data (rows t) (columns t))
            (next_shape (engine w))));
    [unfold log; simpl; now rewrite <- !app_assoc|reflexivity|reflexivity].
Qed.

End TerrainBuild.

(** ** Heights of a synthesized grid *)

Lemma unit_draw_range (k : Z) : 0 <= k < 2 ^ 53 -> (0 <= k # two53 < 1)%Q.
Proof.
  intros [H0 H1]. change (2 ^ 53) with 9007199254740992 in H1.
  unfold Qle, Qlt, two53. simpl. lia.
Qed.

Lemma uniform_draw_range (b : Q) (k : Z) :
  (0 < b)%Q -> 0 <= k < 2 ^ 53 -> (0 <= 0 + (b - 0) * (k # two53) < b)%Q.
Proof.
  intros Hb Hk. destruct (unit_draw_range k Hk) as [H0 H1].
  set (u := (k # two53)%Q) in *. clearbody u. split; nra.
Qed.

Lemma same_height_cells (data : list Q) (rows i j : Z) :
  same_height data rows i j ->
  exists h,
    data !! Z.to_nat (2*i + 2*j*rows) = Some h
    /\ data !! Z.to_nat (2*i + 1 + 2*j*rows) = Some h
    /\ data !! Z.to_nat (2*i + (2*j + 1)*rows) = Some h
    /\ data !! Z.to_nat (2*i + 1 + (2*j + 1)*rows) = Some h.
Proof.
  intros [h H]. exists h. unfold block_cells in H.
  rewrite !Forall_cons in H. tauto.
Qed.

(** C5: in the grid that [RandomHeightFieldTerrain.build_scene] submits, and
    in the grid that the body of [Terrain.generate_terrain] submits for the
    source ['random'], the four cells of every block [(i, j)] with
    [2i+1 < rows] and [2j+1 < columns], at the indices [2i + 2j*rows],
    [2i+1 + 2j*rows], [2i + (2j+1)*rows] and [2i+1 + (2j+1)*rows], hold the
    same height. Both builds run to their end. *)
Theorem blocks_share_one_height (G : PRNG) :
  (forall (sc : RandomHeightFieldTerrain.Scene) (c : client) (w : World G) (i j : Z),
     let rows := RandomHeightFieldTerrain._num_rows sc in
     let built := RandomHeightFieldTerrain.build_scene (Some c) (sc, w) in
     0 <= i -> 0 <= j ->
     2*i + 1 < rows -> 2*j + 1 < RandomHeightFieldTerrain._num_columns sc ->
     exists data h,
       fst built = Ok tt
       /\ last_heightfield (engine (snd (snd built))) = Some data
       /\ data !! Z.to_nat (2*i + 2*j*rows) = Some h
       /\ data !! Z.to_nat (2*i + 1 + 2*j*rows) = Some h
       /\ data !! Z.to_nat (2*i + (2*j + 1)*rows) = Some h
       /\ data !! Z.to_nat (2*i + 1 + (2*j + 1)*rows) = Some h)
  /\ (forall (t : Terrain.Obj) (w : World G) (range : Q) (i j : Z),
        let rows := Terrain.rows t in
        let built := Terrain.generate_terrain_from_line_30 range (t, w) in
        Terrain.terrain_source t = "random"%string ->
        0 <= i -> 0 <= j ->
        2*i + 1 < rows -> 2*j + 1 < Terrain.columns t ->
        exists data h,
          fst built = Ok tt
          /\ last_heightfield (engine (snd (snd built))) = Some data
          /\ data !! Z.to_nat (2*i + 2*j*rows) = Some h
          /\ data !! Z.to_nat (2*i + 1 + 2*j*rows) = Some h
          /\ data !! Z.to_nat (2*i + (2*j + 1)*rows) = Some h
          /\ data !! Z.to_nat (2*i + 1 + (2*j + 1)*rows) = Some h).
Proof.
  split.
  - intros sc c w i j rows built Hi Hj Hr Hc.
    destruct (heightfield_build_spec (fun _ => True) sc c w I (fun _ _ => I))
      as (data & _ & Hok & Hlast & _ & _ & _ & Hblocks).
    destruct (same_height_cells data rows i j (Hblocks i j Hi Hr Hj Hc)) as (h & Hh).
    exists data, h. auto.
  - intros t w range i j rows built Hsrc Hi Hj Hr Hc.
    destruct (generate_terrain_rest_spec (fun _ => True) t w range Hsrc I (fun _ _ => I))
      as (data & _ & Hok & Hlast & _ & _ & Hblocks).
    destruct (same_height_cells data rows i j (Hblocks i j Hi Hr Hj Hc)) as (h & Hh).
    exists data, h. auto.
Qed.

Lemma uniform_from_zero (b : Q) (k : Z) :
  0 <= k < 2 ^ 53 ->
  let h := (0 + (b - 0) * (k # two53))%Q in
  ((0 < b -> 0 <= h < b) /\ (b == 0 -> h == 0) /\ (b < 0 -> b < h <= 0))%Q.
Proof.
  intros Hk h. subst h. destruct (unit_draw_range k Hk) as [H0 H1].
  set (u := (k # two53)%Q) in *. clearbody u.
  split; [intros Hb; split; nra|].
  split; [intros Hb; rewrite Hb; ring|].
  intros Hb; split; nra.
Qed.

(** C6 (as amended): every height of the grid that
    [RandomHeightFieldTerrain.build_scene] submits lies between 0 and
    [b = 5 * height_range], as a draw of [uniform(0, b)] does: in [[0, b)]
    when [b] is positive, equal to 0 when [b] is 0, in [(b, 0]] when [b] is
    negative. The same holds of the grid that the body of
    [Terrain.generate_terrain] submits for the source ['random'], with
    [b = height_perturbation_range]. No sign is asked of the range. The
    grids are those of positive numbers of rows and columns, which the
    engine asks for; their builds run to their end. *)
Theorem heights_within_range (G : PRNG) :
  (forall (sc : RandomHeightFieldTerrain.Scene) (c : client) (w : World G),
     let built := RandomHeightFieldTerrain.build_scene (Some c) (sc, w) in
     let b := (5 * RandomHeightFieldTerrain._height_range sc)%Q in
     0 < RandomHeightFieldTerrain._num_rows sc ->
     0 < RandomHeightFieldTerrain._num_columns sc ->
     exists data,
       fst built = Ok tt
       /\ last_heightfield (engine (snd (snd built))) = Some data
       /\ Forall (fun h => ((0 < b -> 0 <= h < b)
                            /\ (b == 0 -> h == 0)
                            /\ (b < 0 -> b < h <= 0))%Q) data)
  /\ (forall (t : Terrain.Obj) (w : World G) (height_perturbation_range : Q),
        let built :=
          Terrain.generate_terrain_from_line_30 height_perturbation_range (t, w) in
        let b := height_perturbation_range in
        Terrain.terrain_source t = "random"%string ->
        0 < Terrain.rows t ->
        0 < Terrain.columns t ->
        exists data,
          fst built = Ok tt
          /\ last_heightfield (engine (snd (snd built))) = Some data
          /\ Forall (fun h => ((0 < b -> 0 <= h < b)
                               /\ (b == 0 -> h == 0)
                               /\ (b < 0 -> b < h <= 0))%Q) data).
Proof.
  split.
  - intros sc c w built b _ _.
    destruct (heightfield_build_spec
                (fun h => ((0 < b -> 0 <= h < b)
                           /\ (b == 0 -> h == 0)
                           /\ (b < 0 -> b < h <= 0))%Q) sc c w)
      as (data & _ & Hok & Hlast & _ & _ & HP & _).
    + repeat split; intros; lra.
    + intros k Hk.
      destruct (uniform_from_zero (RandomHeightFieldTerrain._height_range sc * 5) k Hk)
        as (Hpos & Hzero & Hneg).
      subst b.
      split; [intros Hb; lapply Hpos; [intros [? ?]; split; lra|lra]|].
      split; [intros Hb; apply Hzero; lra|].
      intros Hb; lapply Hneg; [intros [? ?]; split; lra|lra].
    + exists data. auto.
  - intros t w range built b Hsrc _ _.
    destruct (generate_terrain_rest_spec
                (fun h => ((0 < b -> 0 <= h < b)
                           /\ (b == 0 -> h == 0)
                           /\ (b < 0 -> b < h <= 0))%Q) t w range Hsrc)
      as (data & _ & Hok & Hlast & _ & HP & _).
    + repeat split; intros; lra.
    + intros k Hk. exact (uniform_from_zero range k Hk).
    + exists data. auto.
Qed.

(** C6, the claim as first stated: with the height range 0 the 2x2 scene
    submits four heights equal to 0, none of which lies in the interval
    [[0, 5 * 0)], which is empty. *)
Lemma zero_range_heights_outside_interval :
  exists data,
    fst flat_heightfield_run = Ok tt
    /\ last_heightfield (engine (snd (snd flat_heightfield_run))) = Some data
    /\ length data = 4%nat
    /\ Forall (fun h => (h == 0)%Q) data
    /\ Forall (fun h =>
                ~ (0 <= h < 5 * RandomHeightFieldTerrain._height_range flat_heightfield)%Q)
         data.
Proof.
  exists [0 # two53; 0 # two53; 0 # two53; 0 # two53]%Q.
  split; [vm_compute; reflexivity|].
  split; [vm_compute; reflexivity|].
  split; [reflexivity|].
  split; repeat constructor; try reflexivity;
    intros [_ H]; vm_compute in H; discriminate.
Qed.

(** ** Building the stepstones *)

Section StepstoneBuild.
Context {G : PRNG} {K : Palette}.
Import RandomStepstoneScene.

Lemma cycle_color_ok (palette : list (list Q)) (i : Z) :
  palette ≠ [] -> exists color, stepstones.cycle_color palette i = Ok color.
Proof.
  intros Hne. unfold stepstones.cycle_color.
  destruct (lookup_lt_is_Some_2 palette
              (Z.to_nat (i mod Z.of_nat (length palette)))) as [color Hcolor].
  - destruct palette as [|color palette]; [contradiction|].
    pose proof (Z.mod_pos_bound i (Z.of_nat (length (color :: palette)))) as H.
    simpl length in *. lia.
  - exists color. now rewrite Hcolor.
Qed.

(** With a palette that is not empty the random stones are all placed; their
    handles are the next ones of the engine, in placement order. *)
Lemma build_random_stepstones_ok (c : client) (start_pos : vec3) (n : Z)
    (sh sw llb lub glb gub olb oub : Q) (seed : option Z)
    (palette : list (list Q)) (w : World G) :
  palette ≠ [] ->
  exists end_pos w',
    stepstones.build_random_stepstones (Some c) start_pos n sh sw
      llb lub glb gub olb oub seed palette w
    = (Ok (end_pos, seqZ (next_body (engine w)) (Z.of_nat (Z.to_nat n))), w')
    /\ next_body (engine w') = next_body (engine w) + Z.of_nat (Z.to_nat n).
Proof.
  intros Hne. unfold stepstones.build_random_stepstones.
  set (b0 := next_body (engine w)).
  assert (exists g0 w0, seeded seed w = (Ok g0, w0) /\ next_body (engine w0) = b0)
    as (g0 & w0 & Hseed & Hb0).
  { destruct seed; simpl; eauto. }
  rewrite (bind_ok _ _ _ _ _ Hseed).
  match goal with
  | |- context [for_fold ?l ?body ?a0] =>
      destruct (for_fold_invariant
        (fun k (a : vec3 * list Z * gen_state G) (w1 : World G) =>
           snd (fst a) = seqZ b0 (Z.of_nat k)
           /\ next_body (engine w1) = b0 + Z.of_nat k)
        l body) with (acc := a0) (s := w0) as (acc' & w' & Hrun & Hids & Hnext)
  end.
  - intros k i [[pos ids] gen] w1 _ [Hids Hnext]. simpl in Hids.
    unfold uniform, random, bind, ret, lift_result.
    destruct (gen_next G gen) as [k1 gen1].
    destruct (gen_next G gen1) as [k2 gen2].
    destruct (gen_next G gen2) as [k3 gen3].
    destruct (cycle_color_ok palette i Hne) as [color ->].
    destruct pos as [[x y] z].
    unfold in_engine, zoom, stepstones.build_one_stepstone, stepstones.load_box,
      bind, ret. simpl.
    eexists _, _. split; [reflexivity|]. simpl.
    rewrite seqZ_S, Hids, Hnext. split; [reflexivity|lia].
  - simpl. split; [reflexivity|lia].
  - rewrite (bind_ok _ _ _ _ _ Hrun). unfold ret.
    unfold py_range in Hids, Hnext. rewrite length_seqZ in Hids, Hnext.
    exists (fst (fst acc')), w'. rewrite Hids. split; [reflexivity|exact Hnext].
Qed.

(** The floor phase of a build: one draw from [numpy.random], one box. *)
Lemma build_scene_floor_spec (sc : Scene) (c : client) (w : World G) :
  let cfg := settings sc in
  let draw := gen_next G (np_random w) in
  let floor_height :=
    (_floor_height_lower_bound cfg
     + (_floor_height_upper_bound cfg - _floor_height_lower_bound cfg)
       * (fst draw # two53))%Q in
  let e := engine w in
  build_scene_floor (Some c) (sc, w)
  = (Ok tt,
     (with_floor_id (next_body e) (with__floor_height floor_height sc),
      with_engine
        {| calls := calls e ++
             [CreateCollisionShape (GEOM_BOX (100, 100, 1)%Q) (next_shape e);
              CreateMultiBody 0 (next_shape e) (0, 0, floor_height - 1)%Q
                (0, 0, 0, 1)%Q (next_body e);
              ChangeVisualShape (next_body e) (-1) [1; 1; 1; 1]%Q];
           next_shape := next_shape e + 1;
           next_body := next_body e + 1 |}
        (with_np_random (snd draw) w))).
Proof.
  unfold build_scene_floor, bind, set_self, get_self, in_world, in_engine, in_np_random,
    uniform, random, zoom, modify, gets, ret, bind.
  simpl. destruct (gen_next G (np_random w)) as [k s']. simpl.
  unfold with_engine, log. simpl. rewrite <- !app_assoc. reflexivity.
Qed.

(** With a client and a palette that is not empty the stone phase of a build
    runs to its end; the identifiers it records are as many as there are
    random stones. *)
Lemma build_scene_stones_ok (sc : Scene) (c : client) (w : World G) :
  _color_sequence (settings sc) ≠ [] ->
  exists sc1 w1 ids,
    build_scene_stones (K := K) (Some c) (sc, w) = (Ok tt, (sc1, w1))
    /\ settings sc1 = settings sc
    /\ step_stones_ids sc1 = Some ids
    /\ length ids = Z.to_nat (_num_stones (settings sc)).
Proof.
  intros Hne.
  unfold build_scene_stones, bind, set_self, get_self, in_world, in_engine, in_np_random,
    uniform, random, zoom, modify, gets, ret, bind.
  simpl.
  destruct (gen_next G (np_random w)) as [k1 s1]. simpl.
  destruct (gen_next G s1) as [k2 s2]. simpl.
  match goal with
  | |- context [stepstones.build_random_stepstones _ ?p ?n ?a1 ?a2 ?a3 ?a4 ?a5 ?a6 ?a7 ?a8
                  ?sd ?pal ?w0] =>
      destruct (build_random_stepstones_ok c p n a1 a2 a3 a4 a5 a6 a7 a8 sd pal w0 Hne)
        as (end_pos & w' & Hrun & _)
  end.
  rewrite Hrun. simpl.
  eexists _, _, _. split; [reflexivity|]. simpl. split; [reflexivity|].
  split; [reflexivity|]. rewrite length_map, length_seqZ. lia.
Qed.

End StepstoneBuild.

(** ** The floor of a stepstone scene *)




(** ** Reset without rebuild *)

(** C8: once a scene has been built and [rebuild_scene_during_reset] is
    false, [reset], in whatever world it is called, returns normally, leaves
    the scene as it is and changes nothing of the world (no engine call, no
    random draw) but the ground of the environment, which it sets to the
    handle [floor_id] that the build recorded. This holds for
    [RandomStepstoneScene] and for [RandomHeightFieldTerrain]. *)
Theorem reset_without_rebuild_keeps_scene (G : PRNG) (K : Palette) :
  (forall (c : option client) (sc0 sc : RandomStepstoneScene.Scene) (w0 w : World G),
     RandomStepstoneScene.build_scene (K := K) c (sc0, w0) = (Ok tt, (sc, w)) ->
     RandomStepstoneScene._rebuild_scene_during_reset (RandomStepstoneScene.settings sc)
     = false ->
     exists h,
       RandomStepstoneScene.floor_id sc = Some h
       /\ forall w2 : World G,
            RandomStepstoneScene.reset (K := K) (sc, w2)
            = (Ok tt, (sc, with_env_ground (Some h) w2)))
  /\ (forall (c : option client) (sc0 sc : RandomHeightFieldTerrain.Scene) (w0 w : World G),
        RandomHeightFieldTerrain.build_scene c (sc0, w0) = (Ok tt, (sc, w)) ->
        RandomHeightFieldTerrain._rebuild_scene_during_reset sc = false ->
        exists h,
          RandomHeightFieldTerrain.floor_id sc = Some h
          /\ forall w2 : World G,
               RandomHeightFieldTerrain.reset (sc, w2)
               = (Ok tt, (sc, with_env_ground (Some h) w2))).
Proof.
  split.
  - intros c sc0 sc w0 w Hbuild Hflag.
    unfold RandomStepstoneScene.build_scene in Hbuild.
    apply bind_ok_inv in Hbuild as ([] & [sc1 w1] & _ & Hfloor).
    assert (exists h, RandomStepstoneScene.floor_id sc = Some h) as [h Hh].
    { destruct c as [c|].
      - rewrite build_scene_floor_spec in Hfloor. injection Hfloor as <- _.
        simpl. eauto.
      - unfold RandomStepstoneScene.build_scene_floor, bind, set_self, get_self,
          in_world, in_engine, in_np_random, uniform, random, zoom, modify, gets, ret,
          bind in Hfloor. simpl in Hfloor.
        destruct (gen_next G (np_random w1)). simpl in Hfloor. discriminate. }
    exists h. split; [exact Hh|]. intros w2.
    unfold RandomStepstoneScene.reset, bind, get_self, gets, ret, lift_result, in_world,
      set_ground, zoom, modify.
    simpl. rewrite Hflag. simpl. rewrite Hh. reflexivity.
  - intros c sc0 sc w0 w Hbuild Hflag.
    assert (exists h, RandomHeightFieldTerrain.floor_id sc = Some h) as [h Hh].
    { destruct c as [c|].
      - destruct (heightfield_build_spec (fun _ => True) sc0 c w0 I (fun _ _ => I))
          as (_ & _ & _ & _ & Hid & _).
        rewrite Hbuild in Hid. simpl in Hid. eauto.
      - unfold RandomHeightFieldTerrain.build_scene, bind, set_self, get_self, in_world,
          in_engine, random_module_seed, seeded, zoom, modify, gets, ret, bind in Hbuild.
        simpl in Hbuild.
        destruct (RandomHeightFieldTerrain._random_seed sc0); simpl in Hbuild;
          discriminate. }
    exists h. split; [exact Hh|]. intros w2.
    unfold RandomHeightFieldTerrain.reset, bind, get_self, gets, ret, lift_result,
      in_world, set_ground, zoom, modify.
    simpl. rewrite Hflag. simpl. rewrite Hh. reflexivity.
Qed.

(** ** Accessors before the first build *)

(** C2 (as amended): on a scene that was constructed and not yet built, of
    either class, the property [pybullet_client] raises and returns no
    default. The property [ground_height] checks nothing: it returns 0.0 in
    every state of the scene, built or not. *)
Theorem accessors_before_build (G : PRNG) :
  (forall (a : RandomStepstoneScene.Args) (w w' : World G)
          (sc : RandomStepstoneScene.Scene),
     RandomStepstoneScene.__init__ a w = (Ok sc, w') ->
     is_raise (RandomStepstoneScene.pybullet_client sc)
     /\ RandomStepstoneScene.ground_height sc = Ok 0%Q)
  /\ (forall (a : RandomHeightFieldTerrain.Args) (w w' : World G)
             (sc : RandomHeightFieldTerrain.Scene),
        RandomHeightFieldTerrain.__init__ a w = (Ok sc, w') ->
        is_raise (RandomHeightFieldTerrain.pybullet_client sc)
        /\ RandomHeightFieldTerrain.ground_height sc = Ok 0%Q)
  /\ (forall sc : RandomStepstoneScene.Scene,
        RandomStepstoneScene.ground_height sc = Ok 0%Q)
  /\ (forall sc : RandomHeightFieldTerrain.Scene,
        RandomHeightFieldTerrain.ground_height sc = Ok 0%Q).
Proof.
  repeat split.
  - unfold RandomStepstoneScene.__init__ in H.
    apply bind_ok_inv in H as (u & w1 & _ & H). injection H as <- _. exact I.
  - injection H as <- _. exact I.
Qed.

(** C2, counterexample: on a stepstone scene and on a heightfield scene
    that were constructed and never built, [ground_height] does not fail: it
    returns 0.0. *)
Lemma ground_height_before_build_returns_zero :
  fst (RandomStepstoneScene.__init__ (G := lcg)
         (stepstone_args 3 (Some 7) (MULTICOLOR two_colors)) (sample_world 1 2 1))
  = Ok three_stones
  /\ RandomStepstoneScene.floor_id three_stones = None
  /\ RandomStepstoneScene.ground_height three_stones = Ok 0%Q
  /\ ~ is_raise (RandomStepstoneScene.ground_height three_stones)
  /\ fst (RandomHeightFieldTerrain.__init__ (G := lcg) small_heightfield_args
            (sample_world 1 2 1))
     = Ok small_heightfield
  /\ RandomHeightFieldTerrain.floor_id small_heightfield = None
  /\ ~ is_raise (RandomHeightFieldTerrain.ground_height small_heightfield).
Proof. repeat split; simpl; tauto. Qed.

(** ** Determinism *)

Lemma submit_boxes_app (l1 l2 : list box) (shape body : Z) :
  submit_boxes (l1 ++ l2) shape body
  = submit_boxes l1 shape body
    ++ submit_boxes l2 (shape + Z.of_nat (length l1)) (body + Z.of_nat (length l1)).
Proof.
  revert shape body. induction l1 as [|b l1 IH]; intros shape body.
  - simpl. now rewrite !Z.add_0_r.
  - simpl submit_boxes. rewrite IH, <- app_assoc. do 3 f_equal; simpl length; lia.
Qed.

Lemma length_stone_boxes (stones : list (Q * Q * Q)) (start_pos : vec3) (i : Z)
    (sh sw : Q) (palette : list (list Q)) :
  length (stone_boxes stones start_pos i sh sw palette) = length stones.
Proof.
  revert start_pos i. induction stones as [|stone rest IH]; intros start_pos i;
    simpl; [reflexivity|now rewrite IH].
Qed.

Section StonesLoop.
Context {G : PRNG}.
Variables (sh sw llb lub glb gub olb oub : Q) (palette : list (list Q)).

Lemma cycle_color_stone_color (i : Z) :
  palette ≠ [] -> stepstones.cycle_color palette i = Ok (stone_color palette i).
Proof.
  intros Hne. unfold stepstones.cycle_color, stone_color.
  destruct (lookup_lt_is_Some_2 palette
              (Z.to_nat (i mod Z.of_nat (length palette)))) as [color Hcolor].
  - destruct palette as [|color l]; [contradiction|].
    pose proof (Z.mod_pos_bound i (Z.of_nat (length (color :: l)))) as H.
    simpl length in *. lia.
  - now rewrite Hcolor.
Qed.

Lemma length_stone_draws (n : nat) (g : gen_state G) :
  length (stone_draws n g llb lub glb gub olb oub) = n.
Proof.
  revert g. induction n as [|n IH]; intros g; simpl; [reflexivity|].
  destruct (stone_draw g llb lub glb gub olb oub) as [stone g']. simpl.
  now rewrite IH.
Qed.

Variable body :
  Z -> vec3 * list Z * gen_state G -> M (World G) (vec3 * list Z * gen_state G).

(** One turn of the loop of [build_random_stepstones]: three draws, one
    box. *)
Hypothesis body_step : forall i pos ids g w,
  body i (pos, ids, g) w
  = (Ok (past_stone pos (fst (stone_draw g llb lub glb gub olb oub)),
         ids ++ [next_body (engine w)],
         snd (stone_draw g llb lub glb gub olb oub)),
     with_engine
       {| calls := calls (engine w) ++
            box_calls
              (stone_box pos (fst (stone_draw g llb lub glb gub olb oub)) sh sw
                 (stone_color palette i))
              (next_shape (engine w)) (next_body (engine w));
          next_shape := next_shape (engine w) + 1;
          next_body := next_body (engine w) + 1 |} w).

Lemma stones_loop (n : nat) :
  forall (i : Z) (pos : vec3) (ids : list Z) (g : gen_state G) (w : World G),
  exists end_pos g',
    for_fold (seqZ i (Z.of_nat n)) body (pos, ids, g) w
    = (Ok (end_pos, ids ++ seqZ (next_body (engine w)) (Z.of_nat n), g'),
       with_engine
         {| calls := calls (engine w) ++
              submit_boxes
                (stone_boxes (stone_draws n g llb lub glb gub olb oub) pos i sh sw palette)
                (next_shape (engine w)) (next_body (engine w));
            next_shape := next_shape (engine w) + Z.of_nat n;
            next_body := next_body (engine w) + Z.of_nat n |} w).
Proof.
  induction n as [|n IH]; intros i pos ids g w.
  - exists pos, g. simpl. unfold ret. rewrite !app_nil_r, !Z.add_0_r.
    destruct w as [py np ent reads [cs ns nb] cl gr]. reflexivity.
  - rewrite Nat2Z.inj_succ.
    rewrite (seqZ_cons i) by lia. rewrite Z.pred_succ. simpl for_fold.
    rewrite (bind_ok _ _ _ _ _ (body_step i pos ids g w)).
    simpl stone_draws.
    destruct (stone_draw g llb lub glb gub olb oub) as [stone g1]. simpl fst. simpl snd.
    destruct (IH (Z.succ i) (past_stone pos stone) (ids ++ [next_body (engine w)]) g1
                (with_engine
                   {| calls := calls (engine w) ++
                        box_calls (stone_box pos stone sh sw (stone_color palette i))
                          (next_shape (engine w)) (next_body (engine w));
                      next_shape := next_shape (engine w) + 1;
                      next_body := next_body (engine w) + 1 |} w))
      as (end_pos & g' & Hrun).
    exists end_pos, g'. rewrite Hrun. simpl.
    rewrite (seqZ_cons (next_body (engine w))) by lia. rewrite Z.pred_succ.
    rewrite <- !app_assoc. simpl.
    replace (Z.succ i) with (i + 1) by lia.
    replace (Z.succ (next_body (engine w))) with (next_body (engine w) + 1) by lia.
    replace (next_shape (engine w) + 1 + Z.of_nat n)
      with (next_shape (engine w) + Z.succ (Z.of_nat n)) by lia.
    replace (next_body (engine w) + 1 + Z.of_nat n)
      with (next_body (engine w) + Z.succ (Z.of_nat n)) by lia.
    reflexivity.
Qed.

End StonesLoop.

Section StepstoneLayout.
Context {G : PRNG} {K : Palette}.
Import RandomStepstoneScene.

(** With a client, an integer seed and a palette that is not empty, the
    random stones are those of [stone_draws], placed one after the other. *)
Lemma build_random_stepstones_calls (c : client) (start_pos : vec3) (n : Z)
    (sh sw llb lub glb gub olb oub : Q) (seed : Z)
    (palette : list (list Q)) (w : World G) :
  palette ≠ [] ->
  let e := engine w in
  let stones := stone_draws (Z.to_nat n) (gen_seed G seed) llb lub glb gub olb oub in
  exists end_pos,
    stepstones.build_random_stepstones (Some c) start_pos n sh sw
      llb lub glb gub olb oub (Some seed) palette w
    = (Ok (end_pos, seqZ (next_body e) (Z.of_nat (Z.to_nat n))),
       with_engine
         {| calls := calls e ++
              submit_boxes (stone_boxes stones start_pos 0 sh sw palette)
                (next_shape e) (next_body e);
            next_shape := next_shape e + Z.of_nat (Z.to_nat n);
            next_body := next_body e + Z.of_nat (Z.to_nat n) |} w).
Proof.
  intros Hne e stones. subst e stones.
  unfold stepstones.build_random_stepstones.
  rewrite (bind_ok _ _ _ (gen_seed G seed) w eq_refl).
  unfold py_range.
  match goal with
  | |- context [for_fold ?l ?body ?a0] =>
      destruct (stones_loop sh sw llb lub glb gub olb oub palette body) with
        (n := Z.to_nat n) (i := 0) (pos := start_pos) (ids := @nil Z)
        (g := gen_seed G seed) (w := w) as (end_pos & g' & Hrun)
  end.
  - intros i [[x y] z] ids g w1.
    unfold uniform, random, bind, ret, lift_result, stone_draw.
    destruct (gen_next G g) as [k1 g1].
    destruct (gen_next G g1) as [k2 g2].
    destruct (gen_next G g2) as [k3 g3].
    rewrite (cycle_color_stone_color palette i Hne).
    unfold in_engine, zoom, stepstones.build_one_stepstone, stepstones.load_box,
      bind, ret. simpl.
    unfold with_engine, log. simpl. rewrite <- !app_assoc. reflexivity.
  - exists end_pos.
    replace (seqZ 0 n) with (seqZ 0 (Z.of_nat (Z.to_nat n))).
    + rewrite (bind_ok _ _ _ _ _ Hrun). reflexivity.
    + unfold seqZ. now rewrite Nat2Z.id.
Qed.

(** What a build with a client, an integer seed and a palette that is not
    empty sends the engine, and the floor height it records. *)
Lemma stepstone_build_calls (sc : Scene) (seed : Z) (c : client) (w : World G) :
  _random_seed (settings sc) = Some seed ->
  _color_sequence (settings sc) ≠ [] ->
  let cfg := settings sc in
  let e := engine w in
  let built := build_scene (K := K) (Some c) (sc, w) in
  fst built = Ok tt
  /\ calls (engine (snd (snd built)))
     = calls e ++
       submit_boxes
         (course_boxes cfg K (numpy_draws cfg (np_random w)) (seeded_stones G cfg seed))
         (next_shape e) (next_body e)
  /\ _floor_height (fst (snd built)) = Some (snd (numpy_draws cfg (np_random w))).
Proof.
  intros Hseed Hne cfg e built. subst cfg e built.
  unfold build_scene, build_scene_stones, build_scene_floor, bind, set_self, get_self,
    in_world, in_engine, in_np_random, uniform, random, zoom, modify, gets, ret, bind,
    numpy_draws, course_boxes, seeded_stones.
  simpl. rewrite Hseed.
  destruct (gen_next G (np_random w)) as [k1 s1]. simpl.
  destruct (gen_next G s1) as [k2 s2]. simpl.
  match goal with
  | |- context [stepstones.build_random_stepstones _ ?p ?n ?a1 ?a2 ?a3 ?a4 ?a5 ?a6 ?a7 ?a8
                  _ ?pal ?w0] =>
      destruct (build_random_stepstones_calls c p n a1 a2 a3 a4 a5 a6 a7 a8 seed pal w0 Hne)
        as (end_pos & Hrun)
  end.
  rewrite Hrun. simpl.
  destruct (gen_next G s2) as [k3 s3]. simpl.
  split; [reflexivity|]. split; [|reflexivity].
  rewrite submit_boxes_app, length_stone_boxes, length_stone_draws. simpl.
  rewrite <- !app_assoc. simpl. reflexivity.
Qed.

End StepstoneLayout.

(** C1 (as amended): for a fixed integer seed and the same configuration,
    any two runs of [RandomHeightFieldTerrain.build_scene] on a grid of
    positive numbers of rows and columns, which the engine asks for, end
    normally and submit the same height sequence, whatever the worlds they
    start in. For [RandomStepstoneScene.build_scene] the seed reaches the
    random stones only. With a client and a palette that is not empty, any
    two runs end normally, whatever the worlds they start in, and each
    creates the boxes of [course_boxes], in which
    - length, gap and height offset of every random stone are those of
      [seeded_stones], the same in both runs: they follow from the seed and
      the settings alone;
    - stone width, platform length and floor height are those of
      [numpy_draws]: they follow from the state in which the run finds the
      global stream of [numpy.random], so that two runs which start from
      the same state of [numpy.random] create the same boxes and record the
      same floor height;
    - the engine adds nothing but the handles it hands out. *)
Theorem builds_repeat_for_a_fixed_seed (G : PRNG) (K : Palette) :
  (forall (sc : RandomHeightFieldTerrain.Scene) (seed : Z) (c : client)
          (w1 w2 : World G),
     let run1 := RandomHeightFieldTerrain.build_scene (Some c) (sc, w1) in
     let run2 := RandomHeightFieldTerrain.build_scene (Some c) (sc, w2) in
     RandomHeightFieldTerrain._random_seed sc = Some seed ->
     0 < RandomHeightFieldTerrain._num_rows sc ->
     0 < RandomHeightFieldTerrain._num_columns sc ->
     fst run1 = Ok tt /\ fst run2 = Ok tt
     /\ exists data,
          last_heightfield (engine (snd (snd run1))) = Some data
          /\ last_heightfield (engine (snd (snd run2))) = Some data)
  /\ (forall (sc : RandomStepstoneScene.Scene) (seed : Z) (c : client)
             (w1 w2 : World G),
        let cfg := RandomStepstoneScene.settings sc in
        let stones := seeded_stones G cfg seed in
        let drawn1 := numpy_draws cfg (np_random w1) in
        let drawn2 := numpy_draws cfg (np_random w2) in
        let run1 := RandomStepstoneScene.build_scene (K := K) (Some c) (sc, w1) in
        let run2 := RandomStepstoneScene.build_scene (K := K) (Some c) (sc, w2) in
        RandomStepstoneScene._random_seed cfg = Some seed ->
        RandomStepstoneScene._color_sequence cfg ≠ [] ->
        fst run1 = Ok tt /\ fst run2 = Ok tt
        /\ calls (engine (snd (snd run1)))
           = calls (engine w1) ++
             submit_boxes (course_boxes cfg K drawn1 stones)
               (next_shape (engine w1)) (next_body (engine w1))
        /\ calls (engine (snd (snd run2)))
           = calls (engine w2) ++
             submit_boxes (course_boxes cfg K drawn2 stones)
               (next_shape (engine w2)) (next_body (engine w2))
        /\ RandomStepstoneScene._floor_height (fst (snd run1)) = Some (snd drawn1)
        /\ RandomStepstoneScene._floor_height (fst (snd run2)) = Some (snd drawn2)
        /\ (np_random w1 = np_random w2 ->
            course_boxes cfg K drawn1 stones = course_boxes cfg K drawn2 stones
            /\ RandomStepstoneScene._floor_height (fst (snd run1))
               = RandomStepstoneScene._floor_height (fst (snd run2)))).
Proof.
  split.
  - intros sc seed c w1 w2 run1 run2 Hseed _ _.
    destruct (heightfield_build_spec (fun _ => True) sc c w1 I (fun _ _ => I))
      as (d1 & Hd1 & Hok1 & Hlast1 & _).
    destruct (heightfield_build_spec (fun _ => True) sc c w2 I (fun _ _ => I))
      as (d2 & Hd2 & Hok2 & Hlast2 & _).
    rewrite Hseed in Hd1, Hd2. simpl in Hd1, Hd2.
    assert (d1 = d2) as -> by congruence.
    split; [exact Hok1|]. split; [exact Hok2|]. exists d2. split; assumption.
  - intros sc seed c w1 w2 cfg stones drawn1 drawn2 run1 run2 Hseed Hne.
    destruct (stepstone_build_calls (K := K) sc seed c w1 Hseed Hne)
      as (Hok1 & Hcalls1 & Hfloor1).
    destruct (stepstone_build_calls (K := K) sc seed c w2 Hseed Hne)
      as (Hok2 & Hcalls2 & Hfloor2).
    repeat (split; [assumption|]).
    intros Hnp. subst run1 run2. rewrite Hfloor1, Hfloor2.
    subst drawn1 drawn2. rewrite Hnp. split; reflexivity.
Qed.

(** C1, counterexample: two runs of [RandomStepstoneScene.build_scene] with
    the same seed 7, the same configuration and the same engine, which start
    from two states of [numpy.random], end with two floor heights and two
    stone widths (the second half-extent of the first box created). *)
Lemma same_seed_other_floor_height_and_width :
  let w1 := sample_world 1 2 1 in
  let w2 := sample_world 1 3 1 in
  let run1 :=
    RandomStepstoneScene.build_scene (G := lcg) (K := two_colors)
      (Some (BulletClient 0)) (three_stones, w1) in
  let run2 :=
    RandomStepstoneScene.build_scene (G := lcg) (K := two_colors)
      (Some (BulletClient 0)) (three_stones, w2) in
  RandomStepstoneScene._random_seed (RandomStepstoneScene.settings three_stones) = Some 7
  /\ engine w1 = engine w2
  /\ fst run1 = Ok tt /\ fst run2 = Ok tt
  /\ (exists h1 h2,
        RandomStepstoneScene._floor_height (fst (snd run1)) = Some h1
        /\ RandomStepstoneScene._floor_height (fst (snd run2)) = Some h2
        /\ ~ (h1 == h2)%Q)
  /\ (exists l1 width1 t1 l2 width2 t2,
        calls (engine (snd (snd run1))) !! 0%nat
        = Some (CreateCollisionShape (GEOM_BOX (l1, width1, t1)) 0)
        /\ calls (engine (snd (snd run2))) !! 0%nat
           = Some (CreateCollisionShape (GEOM_BOX (l2, width2, t2)) 0)
        /\ ~ (width1 == width2)%Q).
Proof.
  split; [reflexivity|]. split; [reflexivity|].
  split; [vm_compute; reflexivity|]. split; [vm_compute; reflexivity|]. split.
  - eexists _, _. split; [vm_compute; reflexivity|].
    split; [vm_compute; reflexivity|]. intros H. vm_compute in H. discriminate.
  - eexists _, _, _, _, _, _. split; [vm_compute; reflexivity|].
    split; [vm_compute; reflexivity|]. intros H. vm_compute in H. discriminate.
Qed.

(** ** The recorded stepstone identifiers *)

(** With a client and a palette that is not empty, a build records as many
    stepstone identifiers as there are random stones: the platform stone adds
    none. *)
Lemma step_stones_ids_count (G : PRNG) (K : Palette)
    (sc : RandomStepstoneScene.Scene) (c : client) (w : World G) :
  RandomStepstoneScene._color_sequence (RandomStepstoneScene.settings sc) ≠ [] ->
  exists ids,
    RandomStepstoneScene.step_stones_ids
      (fst (snd (RandomStepstoneScene.build_scene (K := K) (Some c) (sc, w)))) = Some ids
    /\ length ids
       = Z.to_nat (RandomStepstoneScene._num_stones (RandomStepstoneScene.settings sc)).
Proof.
  intros Hne.
  destruct (build_scene_stones_ok (K := K) sc c w Hne)
    as (sc1 & w1 & ids & Hstones & _ & Hids & Hlen).
  exists ids. unfold RandomStepstoneScene.build_scene.
  rewrite (bind_ok _ _ _ _ _ Hstones), build_scene_floor_spec. simpl.
  split; assumption.
Qed.

(** C4: a scene of three stones built on an engine whose next body is 1. The
    engine returns the handles 1 (platform), 2, 3, 4 (stones) and 5 (floor);
    the scene records the three sums 1+2, 1+3 and 1+4 as its stepstone
    identifiers: not four of them, no platform handle, and the floor's
    handle 5 where a stone's is meant. *)
Theorem step_stones_ids_are_sums :
  let run :=
    RandomStepstoneScene.build_scene (G := lcg) (K := two_colors)
      (Some (BulletClient 0)) (three_stones, sample_world 1 2 1) in
  RandomStepstoneScene._num_stones (RandomStepstoneScene.settings three_stones) = 3
  /\ fst run = Ok tt
  /\ created_bodies (engine (snd (snd run))) = [1; 2; 3; 4; 5]
  /\ RandomStepstoneScene.floor_id (fst (snd run)) = Some 5
  /\ RandomStepstoneScene.step_stones_ids (fst (snd run)) = Some [3; 4; 5].
Proof. repeat split; vm_compute; reflexivity. Qed.

(** * The theorems at concrete inputs *)

(** [builds_repeat_for_a_fixed_seed] on the 4x4 heightfield, started in two
    unrelated worlds, and on the three stones, started in two worlds that
    agree on the state of [numpy.random] only: the state of [random] and the
    handles of the engine differ. *)
Lemma builds_repeat_for_a_fixed_seed_witness :
  (exists data,
     last_heightfield
       (engine (snd (snd (RandomHeightFieldTerrain.build_scene (G := lcg)
                            (Some (BulletClient 0))
                            (small_heightfield, sample_world 1 2 0))))) = Some data
     /\ last_heightfield
          (engine (snd (snd (RandomHeightFieldTerrain.build_scene (G := lcg)
                               (Some (BulletClient 0))
                               (small_heightfield, sample_world 9 8 3))))) = Some data)
  /\ RandomStepstoneScene._floor_height
       (fst (snd (RandomStepstoneScene.build_scene (G := lcg) (K := two_colors)
                    (Some (BulletClient 0)) (three_stones, sample_world 1 2 1))))
     = RandomStepstoneScene._floor_height
         (fst (snd (RandomStepstoneScene.build_scene (G := lcg) (K := two_colors)
                      (Some (BulletClient 0)) (three_stones, sample_world 5 2 7)))).
Proof.
  split.
  - exact (proj2 (proj2 (proj1 (builds_repeat_for_a_fixed_seed lcg two_colors)
             small_heightfield 10 (BulletClient 0)
             (sample_world 1 2 0) (sample_world 9 8 3) eq_refl eq_refl eq_refl))).
  - destruct (proj2 (builds_repeat_for_a_fixed_seed lcg two_colors)
                three_stones 7 (BulletClient 0)
                (sample_world 1 2 1) (sample_world 5 2 7) eq_refl)
      as (_ & _ & _ & _ & _ & _ & Hsame); [discriminate|].
    exact (proj2 (Hsame eq_refl)).
Defined.

(** [accessors_before_build] on the three stones as constructed. *)
Lemma accessors_before_build_witness :
  is_raise (RandomStepstoneScene.pybullet_client three_stones)
  /\ RandomStepstoneScene.ground_height three_stones = Ok 0%Q.
Proof.
  exact (proj1 (accessors_before_build lcg)
           (stepstone_args 3 (Some 7) (MULTICOLOR two_colors))
           (sample_world 1 2 1) (sample_world 1 2 1) three_stones eq_refl).
Defined.

(** [stepstone_init_checks_color_lengths] on a palette whose colour has
    three components, and on a palette of two well-formed colours. *)
Lemma stepstone_init_checks_color_lengths_witness :
  RandomStepstoneScene.__init__ (G := lcg)
    (stepstone_args 3 (Some 7) [[1; 0; 0]%Q]) (sample_world 1 2 1)
  = (Raise (ValueError "Each color must be length 4"), sample_world 1 2 1)
  /\ RandomStepstoneScene.__init__ (G := lcg)
       (stepstone_args 3 (Some 7) (MULTICOLOR two_colors)) (sample_world 1 2 1)
     = (Ok three_stones, sample_world 1 2 1).
Proof.
  split.
  - apply (proj1 (stepstone_init_checks_color_lengths lcg
                    (stepstone_args 3 (Some 7) [[1; 0; 0]%Q]) (sample_world 1 2 1))).
    apply Exists_cons_hd. simpl. lia.
  - apply (proj2 (stepstone_init_checks_color_lengths lcg
                    (stepstone_args 3 (Some 7) (MULTICOLOR two_colors))
                    (sample_world 1 2 1))).
    repeat constructor.
Defined.

(** [blocks_share_one_height] on 4x4 grids, at block (1, 1): the cells 10,
    11, 14 and 15. *)
Lemma blocks_share_one_height_witness :
  (exists data h,
     last_heightfield
       (engine (snd (snd (RandomHeightFieldTerrain.build_scene (G := lcg)
                            (Some (BulletClient 0))
                            (small_heightfield, sample_world 1 2 0))))) = Some data
     /\ data !! 10%nat = Some h /\ data !! 11%nat = Some h
     /\ data !! 14%nat = Some h /\ data !! 15%nat = Some h)
  /\ (exists data h,
        last_heightfield
          (engine (snd (snd (Terrain.generate_terrain_from_line_30 (G := lcg) (5 # 100)
                               (small_terrain, sample_world 1 2 0))))) = Some data
        /\ data !! 10%nat = Some h /\ data !! 11%nat = Some h
        /\ data !! 14%nat = Some h /\ data !! 15%nat = Some h).
Proof.
  split.
  - destruct (proj1 (blocks_share_one_height lcg) small_heightfield (BulletClient 0)
                (sample_world 1 2 0) 1 1)
      as (data & h & _ & Hlast & H1 & H2 & H3 & H4); [lia|lia|simpl; lia|simpl; lia|].
    exists data, h. repeat split; assumption.
  - destruct (proj2 (blocks_share_one_height lcg) small_terrain (sample_world 1 2 0)
                (5 # 100)%Q 1 1)
      as (data & h & _ & Hlast & H1 & H2 & H3 & H4);
      [reflexivity|lia|lia|simpl; lia|simpl; lia|].
    exists data, h. repeat split; assumption.
Defined.

(** [heights_within_range] on 4x4 grids, with the ranges 0.03 and 0.05. *)
Lemma heights_within_range_witness :
  (exists data,
     last_heightfield
       (engine (snd (snd (RandomHeightFieldTerrain.build_scene (G := lcg)
                            (Some (BulletClient 0))
                            (small_heightfield, sample_world 1 2 0))))) = Some data
     /\ Forall (fun h => (0 <= h < 5 * (3 # 100))%Q) data)
  /\ (exists data,
        last_heightfield
          (engine (snd (snd (Terrain.generate_terrain_from_line_30 (G := lcg) (5 # 100)
                               (small_terrain, sample_world 1 2 0))))) = Some data
        /\ Forall (fun h => (0 <= h < 5 # 100)%Q) data).
Proof.
  split.
  - destruct (proj1 (heights_within_range lcg) small_heightfield (BulletClient 0)
                (sample_world 1 2 0))
      as (data & _ & Hlast & Hrange); [simpl; lia|simpl; lia|].
    exists data. split; [exact Hlast|].
    eapply Forall_impl; [exact Hrange|].
    intros h (Hpos & _). apply Hpos. reflexivity.
  - destruct (proj2 (heights_within_range lcg) small_terrain (sample_world 1 2 0)
                (5 # 100)%Q)
      as (data & _ & Hlast & Hrange); [reflexivity|simpl; lia|simpl; lia|].
    exists data. split; [exact Hlast|].
    eapply Forall_impl; [exact Hrange|].
    intros h (Hpos & _). apply Hpos. reflexivity.
Defined.


(** [reset_without_rebuild_keeps_scene] on the three stones and on the 4x4
    heightfield, each reset in the world its build left. *)
Lemma reset_without_rebuild_keeps_scene_witness :
  (exists h,
     RandomStepstoneScene.floor_id (fst (snd three_stones_run)) = Some h
     /\ RandomStepstoneScene.reset (K := two_colors)
          (fst (snd three_stones_run), snd (snd three_stones_run))
        = (Ok tt, (fst (snd three_stones_run),
                   with_env_ground (Some h) (snd (snd three_stones_run)))))
  /\ (exists h,
        RandomHeightFieldTerrain.floor_id (fst (snd small_heightfield_run)) = Some h
        /\ RandomHeightFieldTerrain.reset
             (fst (snd small_heightfield_run), snd (snd small_heightfield_run))
           = (Ok tt, (fst (snd small_heightfield_run),
                      with_env_ground (Some h) (snd (snd small_heightfield_run))))).
Proof.
  assert (three_stones_run
          = (Ok tt, (fst (snd three_stones_run), snd (snd three_stones_run)))) as H1.
  { assert (fst three_stones_run = Ok tt) as E by (vm_compute; reflexivity).
    revert E. generalize three_stones_run. intros [r [sc w]] E.
    simpl in E. subst r. reflexivity. }
  assert (RandomStepstoneScene._rebuild_scene_during_reset
            (RandomStepstoneScene.settings (fst (snd three_stones_run))) = false) as H2
    by (vm_compute; reflexivity).
  assert (small_heightfield_run
          = (Ok tt, (fst (snd small_heightfield_run), snd (snd small_heightfield_run))))
    as H3.
  { assert (fst small_heightfield_run = Ok tt) as E by (vm_compute; reflexivity).
    revert E. generalize small_heightfield_run. intros [r [sc w]] E.
    simpl in E. subst r. reflexivity. }
  assert (RandomHeightFieldTerrain._rebuild_scene_during_reset
            (fst (snd small_heightfield_run)) = false) as H4
    by (vm_compute; reflexivity).
  split.
  - destruct (proj1 (reset_without_rebuild_keeps_scene lcg two_colors)
                (Some (BulletClient 0)) three_stones (fst (snd three_stones_run))
                (sample_world 1 2 1) (snd (snd three_stones_run)) H1 H2)
      as (h & Hh & Hreset).
    exists h. split; [exact Hh|exact (Hreset (snd (snd three_stones_run)))].
  - destruct (proj2 (reset_without_rebuild_keeps_scene lcg two_colors)
                (Some (BulletClient 0)) small_heightfield
                (fst (snd small_heightfield_run))
                (sample_world 1 2 0) (snd (snd small_heightfield_run)) H3 H4)
      as (h & Hh & Hreset).
    exists h. split; [exact Hh|exact (Hreset (snd (snd small_heightfield_run)))].
Defined.

(** * Further properties of the heightfield *)

Lemma gen_iter_add {G : PRNG} (a b : nat) (s : gen_state G) :
  gen_iter (a + b) s = gen_iter b (gen_iter a s).
Proof.
  induction b as [|b IH]; simpl.
  - now rewrite Nat.add_0_r.
  - now rewrite Nat.add_succ_r; simpl; rewrite IH.
Qed.

Section DrawOrder.
Context {G : PRNG}.
Variables (rows columns : Z) (height_bound : Q).

Let size : nat := (Z.to_nat columns * (Z.to_nat rows * 1))%nat.

Let height (u : Q) : Q := (0 + (height_bound - 0) * u)%Q.

Let holds (d : list Q) (i j : Z) (h : Q) : Prop :=
  Forall (fun p => d !! p = Some h) (block_cells rows i j).

Let write_block (j i : Z) (heightfieldData : list Q) : M (gen_state G) (list Q) :=
  height <- uniform 0 height_bound ;;
  d1 <- lift_result (setitem heightfieldData (2*i + 2*j*rows) height) ;;
  d2 <- lift_result (setitem d1 (2*i + 1 + 2*j*rows) height) ;;
  d3 <- lift_result (setitem d2 (2*i + (2*j + 1)*rows) height) ;;
  lift_result (setitem d3 (2*i + 1 + (2*j + 1)*rows) height).

Lemma holds_frame (d d' : list Q) (i j : Z) (h : Q) :
  (forall p, p ∈ block_cells rows i j -> d' !! p = d !! p) ->
  holds d i j h -> holds d' i j h.
Proof.
  unfold holds. rewrite !Forall_forall. intros Hsame Hh p Hp.
  rewrite Hsame by exact Hp. now apply Hh.
Qed.

(** One pass of the loop body: one draw, written to the four cells. *)
Lemma write_block_exact (i j : Z) (d : list Q) (s : gen_state G) :
  0 <= i -> 2*i + 1 < rows -> 0 <= j -> 2*j + 1 < columns ->
  length d = size ->
  exists d',
    write_block j i d s = (Ok d', gen_iter 1 s)
    /\ length d' = size
    /\ (forall p, p ∉ block_cells rows i j -> d' !! p = d !! p)
    /\ holds d' i j (height (nth_draw 0 s)).
Proof.
  intros Hi Hr Hj Hc Hlen.
  assert (Z.of_nat (length d) = rows * columns) as HlenZ by (rewrite Hlen; subst size; nia).
  unfold write_block, uniform, random, bind, ret, lift_result, holds, height, nth_draw.
  simpl. destruct (gen_next G s) as [k s']. simpl.
  rewrite setitem_ok by nia.
  rewrite setitem_ok by (rewrite length_insert; nia).
  rewrite setitem_ok by (rewrite !length_insert; nia).
  rewrite setitem_ok by (rewrite !length_insert; nia).
  eexists. split; [reflexivity|].
  split; [now rewrite !length_insert|].
  split.
  - intros p Hp. unfold block_cells in Hp.
    repeat (rewrite not_elem_of_cons in Hp). destruct Hp as (H1 & H2 & H3 & H4 & _).
    now rewrite !list_lookup_insert_ne by congruence.
  - unfold block_cells. repeat constructor.
    + do 3 apply lookup_insert_same. apply list_lookup_insert_eq. nia.
    + do 2 apply lookup_insert_same. apply list_lookup_insert_eq.
      rewrite length_insert. nia.
    + apply lookup_insert_same. apply list_lookup_insert_eq.
      rewrite !length_insert. nia.
    + apply list_lookup_insert_eq. rewrite !length_insert. nia.
Qed.

(** The inner loop draws once per block of the pair of columns [j], in the
    order of [i]. *)
Lemma block_row_exact (j : Z) (d : list Q) (s : gen_state G) :
  0 <= j -> 2*j + 1 < columns ->
  length d = size ->
  exists d',
    for_fold (py_range (int_half rows)) (write_block j) d s
    = (Ok d', gen_iter (Z.to_nat (int_half rows)) s)
    /\ length d' = size
    /\ (forall p, (forall i, 0 <= i < int_half rows -> p ∉ block_cells rows i j) ->
                  d' !! p = d !! p)
    /\ (forall i, 0 <= i < int_half rows ->
                  holds d' i j (height (nth_draw (Z.to_nat i) s))).
Proof.
  intros Hj Hc Hlen.
  destruct (for_fold_invariant
    (fun n d1 s1 =>
       s1 = gen_iter n s /\ length d1 = size
       /\ (forall p, (forall i, 0 <= i < Z.of_nat n -> p ∉ block_cells rows i j) ->
                     d1 !! p = d !! p)
       /\ (forall i, 0 <= i < Z.of_nat n ->
                     holds d1 i j (height (nth_draw (Z.to_nat i) s))))
    (py_range (int_half rows)) (write_block j)) with (acc := d) (s := s)
    as (d' & s' & Hrun & -> & Hlen' & Hout & Hin).
  - intros n i d1 s1 Hn (-> & Hlen1 & Hout1 & Hin1).
    apply lookup_seqZ in Hn as [-> Hn].
    assert (0 <= 0 + Z.of_nat n < int_half rows) as [Hi0 Hr0]%int_half_bound by lia.
    destruct (write_block_exact _ j d1 (gen_iter n s) Hi0 Hr0 Hj Hc Hlen1)
      as (d2 & Hrun & Hlen2 & Hout2 & Hin2).
    exists d2, (gen_iter (S n) s). split; [exact Hrun|]. split; [reflexivity|].
    split; [exact Hlen2|]. split.
    + intros p Hp. rewrite Hout2 by (apply Hp; lia). apply Hout1.
      intros i Hi. apply Hp. lia.
    + intros i Hi. destruct (decide (i = 0 + Z.of_nat n)) as [->|Hne].
      * replace (Z.to_nat (0 + Z.of_nat n)) with n by lia. exact Hin2.
      * apply (holds_frame d1); [|apply Hin1; lia].
        intros p Hp. apply Hout2.
        assert (0 <= i < int_half rows) as [Hi1 Hr1]%int_half_bound by lia.
        apply (block_cells_disjoint rows i j _ j p); try lia. exact Hp.
  - repeat split; try assumption; intros i Hi; lia.
  - exists d'. unfold py_range in Hrun, Hout, Hin. rewrite length_seqZ in Hrun, Hout, Hin.
    split; [exact Hrun|]. split; [exact Hlen'|]. split.
    + intros p Hp. apply Hout. intros i Hi. apply Hp. lia.
    + intros i Hi. apply Hin. lia.
Qed.

(** The whole loop: block [(i, j)] holds draw number [j * (rows/2) + i], the
    cells of no block are left as they were, and as many draws are made as
    there are blocks. *)
Lemma block_noise_exact (d : list Q) (s : gen_state G) :
  length d = size ->
  exists d',
    block_noise d rows columns height_bound s
    = (Ok d', gen_iter (Z.to_nat (int_half columns) * Z.to_nat (int_half rows)) s)
    /\ length d' = size
    /\ (forall p,
          (forall i j, 0 <= i -> 2*i + 1 < rows -> 0 <= j -> 2*j + 1 < columns ->
                       p ∉ block_cells rows i j) ->
          d' !! p = d !! p)
    /\ (forall i j, 0 <= i -> 2*i + 1 < rows -> 0 <= j -> 2*j + 1 < columns ->
          holds d' i j
            (height (nth_draw (Z.to_nat j * Z.to_nat (int_half rows) + Z.to_nat i) s))).
Proof.
  intros Hlen. unfold block_noise.
  set (per_row := Z.to_nat (int_half rows)).
  destruct (for_fold_invariant
    (fun n d1 s1 =>
       s1 = gen_iter (n * per_row) s /\ length d1 = size
       /\ (forall p,
             (forall i j, 0 <= i < int_half rows -> 0 <= j < Z.of_nat n ->
                          p ∉ block_cells rows i j) ->
             d1 !! p = d !! p)
       /\ (forall i j, 0 <= i < int_half rows -> 0 <= j < Z.of_nat n ->
             holds d1 i j (height (nth_draw (Z.to_nat j * per_row + Z.to_nat i) s))))
    (py_range (int_half columns))
    (fun j heightfieldData =>
       for_fold (py_range (int_half rows)) (write_block j) heightfieldData))
    with (acc := d) (s := s) as (d' & s' & Hrun & -> & Hlen' & Hout & Hin).
  - intros n j d1 s1 Hn (-> & Hlen1 & Hout1 & Hin1).
    apply lookup_seqZ in Hn as [-> Hn].
    assert (0 <= 0 + Z.of_nat n < int_half columns) as [Hj0 Hc0]%int_half_bound by lia.
    destruct (block_row_exact _ d1 (gen_iter (n * per_row) s) Hj0 Hc0 Hlen1)
      as (d2 & Hrun & Hlen2 & Hout2 & Hin2).
    exists d2, (gen_iter (S n * per_row) s). split.
    { rewrite Hrun. f_equal. fold per_row. rewrite <- gen_iter_add. f_equal. lia. }
    split; [reflexivity|]. split; [exact Hlen2|]. split.
    + intros p Hp. rewrite Hout2 by (intros i Hi; apply Hp; lia). apply Hout1.
      intros i j Hi Hjn. apply Hp; lia.
    + intros i j Hi Hjn. destruct (decide (j = 0 + Z.of_nat n)) as [->|Hne].
      * replace (Z.to_nat (0 + Z.of_nat n)) with n by lia.
        specialize (Hin2 i Hi). unfold nth_draw in *.
        rewrite gen_iter_add. exact Hin2.
      * apply (holds_frame d1); [|apply Hin1; lia].
        intros p Hp. apply Hout2. intros i' Hi'.
        apply int_half_bound in Hi as [Hi1 Hr1]. apply int_half_bound in Hi' as [Hi2 Hr2].
        apply (block_cells_disjoint rows i j i' _ p); try lia. exact Hp.
  - repeat split; try assumption; intros; lia.
  - exists d'. unfold py_range in Hrun, Hout, Hin. rewrite length_seqZ in Hrun, Hout, Hin.
    split; [exact Hrun|]. split; [exact Hlen'|]. split.
    + intros p Hp. apply Hout. intros i j Hi Hj.
      apply int_half_bound in Hi as [Hi1 Hr1].
      assert (0 <= j < int_half columns) as [Hj1 Hc1]%int_half_bound by lia.
      now apply Hp.
    + intros i j Hi Hr Hj Hc.
      assert (0 <= j < int_half columns) as Hjc by (apply int_half_bound; lia).
      apply Hin; [apply int_half_bound; lia|lia].
Qed.

End DrawOrder.

Section HeightFieldExact.
Context {G : PRNG}.
Import RandomHeightFieldTerrain.

(** What [build_scene] leaves, given what the loop computes. *)
Lemma heightfield_build_eq (sc : Scene) (c : client) (w : World G)
    (data : list Q) (s' : gen_state G) :
  block_noise (py_list_mul (py_list_mul [0%Q] (_num_rows sc)) (_num_columns sc))
    (_num_rows sc) (_num_columns sc) (_height_range sc * 5)%Q
    (seeded_state (_random_seed sc) w) = (Ok data, s') ->
  let e := engine w in
  build_scene (Some c) (sc, w)
  = (Ok tt,
     (with_floor_id (next_body e) (with__pybullet_client (Some c) sc),
      with_engine
        {| calls := calls e ++
             [ConfigureDebugVisualizer COV_ENABLE_RENDERING 0;
              CreateCollisionShape
                (GEOM_HEIGHTFIELD (2 # 100, 2 # 100, 1)%Q
                   (inject_Z (_num_rows sc - 1) / 2)%Q data
                   (_num_rows sc) (_num_columns sc))
                (next_shape e);
              CreateMultiBody 0 (next_shape e) (0, 0, 0)%Q (0, 0, 0, 1)%Q (next_body e);
              ResetBasePositionAndOrientation (next_body e) (0, 0, 0)%Q (0, 0, 0, 1)%Q];
           next_shape := next_shape e + 1;
           next_body := next_body e + 1 |}
        (with_py_random s' (snd (seeded (_random_seed sc) w))))).
Proof.
  intros Hrun e. subst e.
  unfold build_scene, bind, set_self, get_self, in_world, in_engine, in_py_random,
    random_module_seed, seeded, zoom, modify, gets, ret, bind.
  simpl.
  destruct (_random_seed sc) as [n|]; simpl; unfold seeded_state in Hrun; rewrite Hrun;
    simpl; unfold with_engine, with_py_random, log; simpl; rewrite <- !app_assoc;
    reflexivity.
Qed.

Lemma zero_grid_lookup (rows columns : Z) (p : nat) :
  (p < Z.to_nat columns * (Z.to_nat rows * 1))%nat ->
  py_list_mul (py_list_mul [0%Q] rows) columns !! p = Some 0%Q.
Proof.
  intros Hp.
  destruct (lookup_lt_is_Some_2 (py_list_mul (py_list_mul [0%Q] rows) columns) p)
    as [x Hx]; [now rewrite !length_py_list_mul|].
  assert (Forall (eq 0%Q) (py_list_mul (py_list_mul [0%Q] rows) columns)) as Hzero
    by (apply Forall_py_list_mul, Forall_py_list_mul; now constructor).
  rewrite Hx. f_equal. symmetry. exact (Forall_lookup_1 _ _ _ _ Hzero Hx).
Qed.

End HeightFieldExact.

(** X3: with a client and positive numbers of rows and columns, the loop of
    [RandomHeightFieldTerrain.build_scene] writes no cell outside the grid,
    and the build sends the engine exactly four calls, in this order:
    rendering switched off (and not on again), one heightfield shape of mesh
    scale (0.02, 0.02, 1), texture scaling (rows - 1) / 2 and rows * columns
    samples, one body of mass 0 on that shape, and the body moved to the
    origin. It records the client and the handle of that body, and leaves
    [numpy.random] and the ground of the environment as they were. The
    engine is taken to accept a heightfield of positive dimensions. *)
Theorem heightfield_build_submission (G : PRNG)
    (sc : RandomHeightFieldTerrain.Scene) (c : client) (w : World G) :
  let rows := RandomHeightFieldTerrain._num_rows sc in
  let columns := RandomHeightFieldTerrain._num_columns sc in
  let e := engine w in
  let built := RandomHeightFieldTerrain.build_scene (Some c) (sc, w) in
  0 < rows -> 0 < columns ->
  exists data,
    fst built = Ok tt
    /\ Z.of_nat (length data) = rows * columns
    /\ calls (engine (snd (snd built)))
       = calls e ++
         [ConfigureDebugVisualizer COV_ENABLE_RENDERING 0;
          CreateCollisionShape
            (GEOM_HEIGHTFIELD (2 # 100, 2 # 100, 1)%Q (inject_Z (rows - 1) / 2)%Q
               data rows columns) (next_shape e);
          CreateMultiBody 0 (next_shape e) (0, 0, 0)%Q (0, 0, 0, 1)%Q (next_body e);
          ResetBasePositionAndOrientation (next_body e) (0, 0, 0)%Q (0, 0, 0, 1)%Q]
    /\ fst (snd built)
       = RandomHeightFieldTerrain.with_floor_id (next_body e)
           (RandomHeightFieldTerrain.with__pybullet_client (Some c) sc)
    /\ np_random (snd (snd built)) = np_random w
    /\ env_ground (snd (snd built)) = env_ground w.
Proof.
  intros rows columns e built Hrows Hcolumns.
  destruct (block_noise_exact rows columns
              (RandomHeightFieldTerrain._height_range sc * 5)%Q
              (py_list_mul (py_list_mul [0%Q] rows) columns)
              (seeded_state (RandomHeightFieldTerrain._random_seed sc) w))
    as (data & Hrun & Hlen & _); [now rewrite !length_py_list_mul|].
  exists data. subst built.
  rewrite (heightfield_build_eq sc c w data _ Hrun). simpl.
  repeat split; try reflexivity.
  - rewrite Hlen. nia.
  - now destruct (RandomHeightFieldTerrain._random_seed sc).
  - now destruct (RandomHeightFieldTerrain._random_seed sc).
Qed.

(** X1: the loop of [RandomHeightFieldTerrain.build_scene] draws in a fixed
    order, columns of blocks outside and rows of blocks inside: the four
    cells of block [(i, j)] hold [5 * height_range] times draw number
    [j * int(rows/2) + i] of the stream that [random.seed(random_seed)]
    starts, and the build leaves the module [random] after
    [int(columns/2) * int(rows/2)] draws of that stream, one per block. *)
Theorem heightfield_draw_order (G : PRNG)
    (sc : RandomHeightFieldTerrain.Scene) (c : client) (w : World G) (i j : Z) :
  let rows := RandomHeightFieldTerrain._num_rows sc in
  let columns := RandomHeightFieldTerrain._num_columns sc in
  let s0 := seeded_state (RandomHeightFieldTerrain._random_seed sc) w in
  let built := RandomHeightFieldTerrain.build_scene (Some c) (sc, w) in
  0 <= i -> 0 <= j -> 2*i + 1 < rows -> 2*j + 1 < columns ->
  exists data,
    last_heightfield (engine (snd (snd built))) = Some data
    /\ Forall (fun p =>
         data !! p
         = Some (0 + (RandomHeightFieldTerrain._height_range sc * 5 - 0)
                     * nth_draw (Z.to_nat j * Z.to_nat (int_half rows) + Z.to_nat i) s0)%Q)
         (block_cells rows i j)
    /\ py_random (snd (snd built))
       = gen_iter (Z.to_nat (int_half columns) * Z.to_nat (int_half rows)) s0.
Proof.
  intros rows columns s0 built Hi Hj Hr Hc.
  destruct (block_noise_exact rows columns
              (RandomHeightFieldTerrain._height_range sc * 5)%Q
              (py_list_mul (py_list_mul [0%Q] rows) columns) s0)
    as (data & Hrun & _ & _ & Hin); [now rewrite !length_py_list_mul|].
  exists data. subst built.
  rewrite (heightfield_build_eq sc c w data _ Hrun). simpl.
  split; [|split; [exact (Hin i j Hi Hr Hj Hc)|reflexivity]].
  eapply last_heightfield_after with
    (before := calls (engine w) ++ [ConfigureDebugVisualizer COV_ENABLE_RENDERING 0])
    (after := [_; _]);
    [simpl; now rewrite <- app_assoc|reflexivity|reflexivity].
Qed.

(** X2: the loop only reaches whole 2x2 blocks. When the number of rows is
    odd, every cell of the last row of the submitted grid is 0, and when the
    number of columns is odd, every cell of the last column is 0: these
    cells keep the value the grid was allocated with. *)
Theorem heightfield_odd_edges_stay_zero (G : PRNG)
    (sc : RandomHeightFieldTerrain.Scene) (c : client) (w : World G) :
  let rows := RandomHeightFieldTerrain._num_rows sc in
  let columns := RandomHeightFieldTerrain._num_columns sc in
  let built := RandomHeightFieldTerrain.build_scene (Some c) (sc, w) in
  exists data,
    last_heightfield (engine (snd (snd built))) = Some data
    /\ (forall k col, rows = 2 * k + 1 -> 0 <= k -> 0 <= col < columns ->
                      data !! Z.to_nat (rows - 1 + col * rows) = Some 0%Q)
    /\ (forall k r, columns = 2 * k + 1 -> 0 <= k -> 0 <= r < rows ->
                    data !! Z.to_nat (r + (columns - 1) * rows) = Some 0%Q).
Proof.
  intros rows columns built.
  destruct (block_noise_exact rows columns
              (RandomHeightFieldTerrain._height_range sc * 5)%Q
              (py_list_mul (py_list_mul [0%Q] rows) columns)
              (seeded_state (RandomHeightFieldTerrain._random_seed sc) w))
    as (data & Hrun & _ & Hout & _); [now rewrite !length_py_list_mul|].
  exists data. subst built.
  rewrite (heightfield_build_eq sc c w data _ Hrun). simpl.
  split.
  { eapply last_heightfield_after with
      (before := calls (engine w) ++ [ConfigureDebugVisualizer COV_ENABLE_RENDERING 0])
      (after := [_; _]);
      [simpl; now rewrite <- app_assoc|reflexivity|reflexivity]. }
  pose proof Z2Nat.inj as Hinj.
  split.
  - intros k col Hk Hk0 Hcol. rewrite Hout; [apply zero_grid_lookup; nia|].
    intros i j Hi Hr Hj Hc Hp. unfold block_cells in Hp.
    repeat (rewrite elem_of_cons in Hp). rewrite elem_of_nil in Hp.
    destruct Hp as [Hp|[Hp|[Hp|[Hp|[]]]]]; apply Hinj in Hp; try nia;
      destruct (Z.lt_trichotomy col (2 * j)) as [Hlt|[->|Hlt]]; try nia;
      destruct (Z.lt_trichotomy col (2 * j + 1)) as [Hlt'|[->|Hlt']]; nia.
  - intros k r Hk Hk0 Hr. rewrite Hout; [apply zero_grid_lookup; nia|].
    intros i j Hi Hr' Hj Hc Hp. unfold block_cells in Hp.
    repeat (rewrite elem_of_cons in Hp). rewrite elem_of_nil in Hp.
    destruct Hp as [Hp|[Hp|[Hp|[Hp|[]]]]]; apply Hinj in Hp; try nia;
      destruct (Z.lt_trichotomy (columns - 1) (2 * j)) as [Hlt|[Heq|Hlt]]; try nia;
      destruct (Z.lt_trichotomy (columns - 1) (2 * j + 1)) as [Hlt'|[Heq'|Hlt']]; nia.
Qed.

(** ** Reset with rebuild *)

Lemma heightfield_reset_rebuild_eq (G : PRNG)
    (sc sc' : RandomHeightFieldTerrain.Scene) (c : client) (w w' : World G) (h : Z) :
  RandomHeightFieldTerrain._pybullet_client sc = Some (Some c) ->
  RandomHeightFieldTerrain._rebuild_scene_during_reset sc = true ->
  RandomHeightFieldTerrain.build_scene (Some c) (sc, w) = (Ok tt, (sc', w')) ->
  RandomHeightFieldTerrain.floor_id sc' = Some h ->
  RandomHeightFieldTerrain.reset (sc, w) = (Ok tt, (sc', with_env_ground (Some h) w')).
Proof.
  intros Hclient Hflag Hbuild Hid.
  unfold RandomHeightFieldTerrain.reset.
  unfold bind at 1. unfold get_self at 1, gets. cbv beta iota. unfold fst at 1 2.
  rewrite Hflag, Hclient.
  unfold bind at 1. unfold bind at 1. unfold lift_result at 1, getattr at 1.
  cbv beta iota. rewrite Hbuild.
  unfold bind, get_self, gets, lift_result, in_world, set_ground, zoom, modify.
  simpl. rewrite Hid. reflexivity.
Qed.

(** X4: a heightfield scene with an integer seed that rebuilds on reset.
    After a build, [reset], in whatever world it is called, builds the
    terrain again: it returns normally, submits the very height sequence of
    the first build (the generator is seeded again), creates one more body
    without removing any, and records and reports to the environment the
    handle of the new body. *)
Theorem heightfield_reset_rebuilds_same_terrain (G : PRNG)
    (sc sc1 : RandomHeightFieldTerrain.Scene) (seed : Z) (c : client)
    (w0 w1 w2 : World G) :
  RandomHeightFieldTerrain._random_seed sc = Some seed ->
  RandomHeightFieldTerrain._rebuild_scene_during_reset sc = true ->
  RandomHeightFieldTerrain.build_scene (Some c) (sc, w0) = (Ok tt, (sc1, w1)) ->
  let after := RandomHeightFieldTerrain.reset (sc1, w2) in
  fst after = Ok tt
  /\ last_heightfield (engine (snd (snd after))) = last_heightfield (engine w1)
  /\ created_bodies (engine (snd (snd after)))
     = created_bodies (engine w2) ++ [next_body (engine w2)]
  /\ RandomHeightFieldTerrain.floor_id (fst (snd after)) = Some (next_body (engine w2))
  /\ env_ground (snd (snd after)) = Some (next_body (engine w2)).
Proof.
  intros Hseed Hflag Hbuild after.
  destruct (block_noise_exact (RandomHeightFieldTerrain._num_rows sc)
              (RandomHeightFieldTerrain._num_columns sc)
              (RandomHeightFieldTerrain._height_range sc * 5)%Q
              (py_list_mul (py_list_mul [0%Q] (RandomHeightFieldTerrain._num_rows sc))
                 (RandomHeightFieldTerrain._num_columns sc))
              (gen_seed G seed))
    as (data & Hrun & _); [now rewrite !length_py_list_mul|].
  match type of Hrun with _ = (_, ?s) => set (s' := s) in * end.
  assert (forall w : World G,
            seeded_state (RandomHeightFieldTerrain._random_seed sc) w = gen_seed G seed)
    as Hstate by (intros w; now rewrite Hseed).
  pose proof (heightfield_build_eq sc c w0 data _
                (eq_ind_r (fun s => block_noise _ _ _ _ s = _) Hrun (Hstate w0))) as H0.
  simpl in H0. rewrite H0 in Hbuild. injection Hbuild as <- <-.
  set (sc1 := RandomHeightFieldTerrain.with_floor_id _ _) in *.
  assert (block_noise
            (py_list_mul (py_list_mul [0%Q] (RandomHeightFieldTerrain._num_rows sc1))
               (RandomHeightFieldTerrain._num_columns sc1))
            (RandomHeightFieldTerrain._num_rows sc1)
            (RandomHeightFieldTerrain._num_columns sc1)
            (RandomHeightFieldTerrain._height_range sc1 * 5)%Q
            (seeded_state (RandomHeightFieldTerrain._random_seed sc1) w2)
          = (Ok data, s')) as Hrun2.
  { subst sc1. simpl. rewrite Hseed. exact Hrun. }
  pose proof (heightfield_build_eq sc1 c w2 data _ Hrun2) as H2. simpl in H2.
  subst after.
  erewrite (heightfield_reset_rebuild_eq G sc1 _ c w2 _ (next_body (engine w2)));
    [|reflexivity|exact Hflag|exact H2|reflexivity].
  simpl. split; [reflexivity|]. split.
  { unfold last_heightfield. simpl. rewrite !omap_app. simpl.
    rewrite !last_snoc. reflexivity. }
  split; [|split; reflexivity].
  unfold created_bodies. simpl. rewrite omap_app. reflexivity.
Qed.

(** ** Calls that fail *)

(** X5: [reset] on a scene that was constructed and never built raises
    [AttributeError] and changes nothing, in both classes: with
    [rebuild_scene_during_reset] set it fails on reading [_pybullet_client],
    otherwise on reading [floor_id]; the environment is told of no ground. *)
Theorem reset_before_build_raises (G : PRNG) (K : Palette) :
  (forall (a : RandomStepstoneScene.Args) (w : World G),
     RandomStepstoneScene.reset (K := K) (RandomStepstoneScene.assigned a, w)
     = (Raise (AttributeError
                 (if RandomStepstoneScene.rebuild_scene_during_reset a
                  then "_pybullet_client" else "floor_id")),
        (RandomStepstoneScene.assigned a, w)))
  /\ (forall (a : RandomHeightFieldTerrain.Args) (w : World G),
        RandomHeightFieldTerrain.reset (RandomHeightFieldTerrain.assigned a, w)
        = (Raise (AttributeError
                    (if RandomHeightFieldTerrain.rebuild_scene_during_reset a
                     then "_pybullet_client" else "floor_id")),
           (RandomHeightFieldTerrain.assigned a, w))).
Proof.
  split; intros a w.
  - unfold RandomStepstoneScene.reset, bind, get_self, gets, lift_result. simpl.
    destruct (RandomStepstoneScene.rebuild_scene_during_reset a); reflexivity.
  - unfold RandomHeightFieldTerrain.reset, bind, get_self, gets, lift_result. simpl.
    destruct (RandomHeightFieldTerrain.rebuild_scene_during_reset a); reflexivity.
Qed.

(** X6: [RandomHeightFieldTerrain.build_scene(None)] raises
    [AttributeError] at its first engine call, after it has stored [None] as
    the client and seeded the module [random]: nothing reaches the engine
    and [floor_id] is as before. From then on the property [pybullet_client]
    raises the [ValueError] of its guard. *)
Theorem heightfield_build_without_client (G : PRNG)
    (sc : RandomHeightFieldTerrain.Scene) (w : World G) :
  let built := RandomHeightFieldTerrain.build_scene None (sc, w) in
  fst built = Raise (AttributeError "configureDebugVisualizer")
  /\ fst (snd built) = RandomHeightFieldTerrain.with__pybullet_client None sc
  /\ engine (snd (snd built)) = engine w
  /\ py_random (snd (snd built))
     = seeded_state (RandomHeightFieldTerrain._random_seed sc) w
  /\ RandomHeightFieldTerrain.pybullet_client (fst (snd built))
     = Raise (ValueError "pybullet_client is None; did you call build_scene()?").
Proof.
  unfold RandomHeightFieldTerrain.build_scene, bind, set_self, get_self, in_world,
    in_engine, random_module_seed, seeded, zoom, modify, gets, ret, bind.
  simpl. destruct (RandomHeightFieldTerrain._random_seed sc); simpl; repeat split.
Qed.

(** X7: [RandomStepstoneScene.build_scene(None)] raises, and not before it
    has stored [None] as the client and taken two numbers (stone width and
    platform length) from [numpy.random]: the failed build reaches no engine
    call and assigns neither [step_stones_ids] nor [floor_id], yet the global
    stream has moved on by two draws. From then on the property
    [pybullet_client] raises the [ValueError] of its guard. *)
Theorem stepstone_build_without_client (G : PRNG) (K : Palette)
    (sc : RandomStepstoneScene.Scene) (w : World G) :
  let built := RandomStepstoneScene.build_scene (K := K) None (sc, w) in
  is_raise (fst built)
  /\ fst (snd built) = RandomStepstoneScene.with__pybullet_client None sc
  /\ engine (snd (snd built)) = engine w
  /\ np_random (snd (snd built)) = gen_iter 2 (np_random w)
  /\ RandomStepstoneScene.pybullet_client (fst (snd built))
     = Raise (ValueError "pybullet_client is None; did you call build_scene()?").
Proof.
  unfold RandomStepstoneScene.build_scene, RandomStepstoneScene.build_scene_stones,
    bind, set_self, get_self, in_world, in_engine, in_np_random, uniform, random,
    zoom, modify, gets, ret, bind.
  simpl. destruct (gen_next G (np_random w)) as [k1 s1]. simpl.
  destruct (gen_next G s1) as [k2 s2]. simpl. repeat split.
Qed.

(** ** The body of [Terrain.generate_terrain] *)

Section TerrainExact.
Context {G : PRNG}.
Import Terrain.

(** What lines 30-53 leave for the source ['random'], given what the loop
    computes. *)
Lemma generate_terrain_rest_eq (t : Obj) (w : World G) (range : Q)
    (data : list Q) (s' : gen_state G) :
  terrain_source t = "random"%string ->
  block_noise (py_list_mul (py_list_mul [0%Q] (columns t)) (rows t))
    (rows t) (columns t) range (py_random w) = (Ok data, s') ->
  let e := engine w in
  generate_terrain_from_line_30 range (t, w)
  = (Ok tt,
     (with_terrain_shape (next_shape e) t,
      with_engine
        {| calls := calls e ++
             [ConfigureDebugVisualizer COV_ENABLE_RENDERING 0;
              CreateCollisionShape
                (GEOM_HEIGHTFIELD (5 # 100, 5 # 100, 1)%Q
                   (inject_Z (rows t - 1) / 2)%Q data (rows t) (columns t))
                (next_shape e);
              CreateMultiBody 0 (next_shape e) (0, 0, 0)%Q (0, 0, 0, 1)%Q (next_body e);
              ResetBasePositionAndOrientation (next_body e) (0, 0, 0)%Q (0, 0, 0, 1)%Q;
              ChangeVisualShape (next_body e) (-1) [1; 1; 1; 1]%Q];
           next_shape := next_shape e + 1;
           next_body := next_body e + 1 |}
        (with_py_random s' w))).
Proof.
  intros Hsrc Hrun e. subst e.
  unfold generate_terrain_from_line_30, bind, set_self, get_self, in_world, in_engine,
    in_py_random, zoom, modify, gets, ret, bind.
  simpl. rewrite Hsrc. simpl. rewrite Hrun. simpl.
  unfold with_engine, with_py_random, log. simpl. rewrite <- !app_assoc. reflexivity.
Qed.

End TerrainExact.

(** X8: lines 30-53 of [Terrain.generate_terrain]. For a source other than
    ['random'] they switch rendering off and then raise [UnboundLocalError]
    on [terrain_shape]: no shape and no body is created. For the source
    ['random'] and positive numbers of rows and columns the loop writes no
    cell outside the grid, and they send the engine exactly five calls
    (rendering off, one heightfield shape of mesh scale (0.05, 0.05, 1) and
    rows * columns samples, one body of mass 0, the body moved to the
    origin, the body tinted opaque white), record the handle of the shape
    and do not switch rendering on again. The engine is taken to accept a
    heightfield of positive dimensions. *)
Theorem terrain_body_submission (G : PRNG) (t : Terrain.Obj) (w : World G) (range : Q) :
  let rows := Terrain.rows t in
  let columns := Terrain.columns t in
  let e := engine w in
  let built := Terrain.generate_terrain_from_line_30 range (t, w) in
  (Terrain.terrain_source t ≠ "random"%string ->
   built
   = (Raise (UnboundLocalError "terrain_shape"),
      (t, with_engine (log (ConfigureDebugVisualizer COV_ENABLE_RENDERING 0) e) w)))
  /\ (Terrain.terrain_source t = "random"%string ->
      0 < rows -> 0 < columns ->
      exists data,
        fst built = Ok tt
        /\ Z.of_nat (length data) = rows * columns
        /\ calls (engine (snd (snd built)))
           = calls e ++
             [ConfigureDebugVisualizer COV_ENABLE_RENDERING 0;
              CreateCollisionShape
                (GEOM_HEIGHTFIELD (5 # 100, 5 # 100, 1)%Q (inject_Z (rows - 1) / 2)%Q
                   data rows columns) (next_shape e);
              CreateMultiBody 0 (next_shape e) (0, 0, 0)%Q (0, 0, 0, 1)%Q (next_body e);
              ResetBasePositionAndOrientation (next_body e) (0, 0, 0)%Q (0, 0, 0, 1)%Q;
              ChangeVisualShape (next_body e) (-1) [1; 1; 1; 1]%Q]
        /\ fst (snd built) = Terrain.with_terrain_shape (next_shape e) t).
Proof.
  intros rows columns e built. split; [intros Hsrc|intros Hsrc Hrows Hcolumns].
  - subst built.
    unfold Terrain.generate_terrain_from_line_30, bind, get_self, in_world, in_engine,
      zoom, modify, gets, raise.
    simpl. apply String.eqb_neq in Hsrc. rewrite Hsrc. reflexivity.
  - destruct (block_noise_exact rows columns range
                (py_list_mul (py_list_mul [0%Q] columns) rows) (py_random w))
      as (data & Hrun & Hlen & _); [rewrite !length_py_list_mul; simpl; lia|].
    exists data. subst built.
    rewrite (generate_terrain_rest_eq t w range data _ Hsrc Hrun). simpl.
    repeat split. rewrite Hlen. nia.
Qed.

(** X9: a [Terrain] constructed with the source ['random'] has its terrain
    fixed by the constant seed 10 of the constructor: whatever the other
    arguments and the state of the module [random] before, lines 30-53 of
    [generate_terrain], run next, give block [(i, j)] of the grid the height
    [height_perturbation_range] times draw number [j * int(rows/2) + i] of
    the stream that [random.seed(10)] starts. *)
Theorem terrain_heights_follow_seed_10 (G : PRNG) (terrain_id : string)
    (columns rows : Z) (w : World G) (height_perturbation_range : Q) (i j : Z) :
  let made := Terrain.__init__ "random" terrain_id columns rows w in
  0 <= i -> 0 <= j -> 2*i + 1 < rows -> 2*j + 1 < columns ->
  exists t data,
    fst made = Ok t
    /\ last_heightfield
         (engine (snd (snd (Terrain.generate_terrain_from_line_30
                              height_perturbation_range (t, snd made))))) = Some data
    /\ Forall (fun p =>
         data !! p
         = Some (0 + (height_perturbation_range - 0)
                     * nth_draw (Z.to_nat j * Z.to_nat (int_half rows) + Z.to_nat i)
                         (gen_seed G 10))%Q)
         (block_cells rows i j).
Proof.
  intros made Hi Hj Hr Hc. subst made.
  unfold Terrain.__init__, bind, random_module_seed, seeded, modify, ret. simpl.
  eexists. 
  destruct (block_noise_exact rows columns height_perturbation_range
              (py_list_mul (py_list_mul [0%Q] columns) rows) (gen_seed G 10))
    as (data & Hrun & _ & _ & Hin); [rewrite !length_py_list_mul; simpl; lia|].
  exists data. split; [reflexivity|].
  erewrite generate_terrain_rest_eq; [|reflexivity|exact Hrun]. simpl.
  split; [|exact (Hin i j Hi Hr Hj Hc)].
  eapply last_heightfield_after with
    (before := calls (engine w) ++ [ConfigureDebugVisualizer COV_ENABLE_RENDERING 0])
    (after := [_; _; _]);
    [simpl; now rewrite <- app_assoc|reflexivity|reflexivity].
Qed.

(** ** The further properties at concrete inputs *)

(** [heightfield_draw_order] on the 3x5 grid, at block (0, 1): cell 6 holds
    the second draw, and two draws are made in all. *)
Lemma heightfield_draw_order_witness :
  exists data,
    last_heightfield (engine (snd (snd odd_heightfield_run))) = Some data
    /\ data !! 6%nat
       = Some (0 + ((3 # 100) * 5 - 0) * nth_draw 1 (gen_seed lcg 10))%Q
    /\ py_random (snd (snd odd_heightfield_run)) = gen_iter 2 (gen_seed lcg 10).
Proof.
  destruct (heightfield_draw_order lcg odd_heightfield (BulletClient 0)
              (sample_world 1 2 0) 0 1)
    as (data & Hlast & Hcells & Hpy); [lia|lia|simpl; lia|simpl; lia|].
  exists data. split; [exact Hlast|]. split; [|exact Hpy].
  unfold block_cells in Hcells. apply Forall_cons in Hcells as [Hcell _]. exact Hcell.
Defined.

(** [heightfield_odd_edges_stay_zero] on the 3x5 grid: cell 8 of the last
    row and cell 13 of the last column. *)
Lemma heightfield_odd_edges_stay_zero_witness :
  exists data,
    last_heightfield (engine (snd (snd odd_heightfield_run))) = Some data
    /\ data !! 8%nat = Some 0%Q
    /\ data !! 13%nat = Some 0%Q.
Proof.
  destruct (heightfield_odd_edges_stay_zero lcg odd_heightfield (BulletClient 0)
              (sample_world 1 2 0))
    as (data & Hlast & Hrows & Hcolumns).
  exists data. split; [exact Hlast|]. split.
  - apply (Hrows 1 2); [reflexivity|lia|simpl; lia].
  - apply (Hcolumns 2 1); [reflexivity|lia|simpl; lia].
Defined.

(** [heightfield_reset_rebuilds_same_terrain] on the 3x5 scene, reset in the
    world its build left. *)
Lemma heightfield_reset_rebuilds_same_terrain_witness :
  let after :=
    RandomHeightFieldTerrain.reset
      (fst (snd odd_heightfield_run), snd (snd odd_heightfield_run)) in
  fst after = Ok tt
  /\ last_heightfield (engine (snd (snd after)))
     = last_heightfield (engine (snd (snd odd_heightfield_run)))
  /\ created_bodies (engine (snd (snd after)))
     = created_bodies (engine (snd (snd odd_heightfield_run)))
       ++ [next_body (engine (snd (snd odd_heightfield_run)))]
  /\ RandomHeightFieldTerrain.floor_id (fst (snd after))
     = Some (next_body (engine (snd (snd odd_heightfield_run))))
  /\ env_ground (snd (snd after))
     = Some (next_body (engine (snd (snd odd_heightfield_run)))).
Proof.
  assert (odd_heightfield_run
          = (Ok tt, (fst (snd odd_heightfield_run), snd (snd odd_heightfield_run))))
    as Hbuild.
  { assert (fst odd_heightfield_run = Ok tt) as E by (vm_compute; reflexivity).
    revert E. generalize odd_heightfield_run. intros [r [sc w]] E.
    simpl in E. subst r. reflexivity. }
  exact (heightfield_reset_rebuilds_same_terrain lcg odd_heightfield
           (fst (snd odd_heightfield_run)) 10 (BulletClient 0) (sample_world 1 2 0)
           (snd (snd odd_heightfield_run)) (snd (snd odd_heightfield_run))
           eq_refl eq_refl Hbuild).
Defined.

(** [terrain_body_submission] on a 4x4 terrain with the source ['mounts']
    and on one with the source ['random']. *)
Lemma terrain_body_submission_witness :
  fst (Terrain.generate_terrain_from_line_30 (G := lcg) (5 # 100)
         (mounts_terrain, sample_world 1 2 0))
  = Raise (UnboundLocalError "terrain_shape")
  /\ fst (Terrain.generate_terrain_from_line_30 (G := lcg) (5 # 100)
            (small_terrain, sample_world 1 2 0))
     = Ok tt.
Proof.
  split.
  - rewrite (proj1 (terrain_body_submission lcg mounts_terrain (sample_world 1 2 0)
                      (5 # 100)%Q)); [reflexivity|discriminate].
  - destruct (proj2 (terrain_body_submission lcg small_terrain (sample_world 1 2 0)
                       (5 # 100)%Q)) as (data & Hok & _);
      [reflexivity|simpl; lia|simpl; lia|exact Hok].
Defined.

(** [terrain_heights_follow_seed_10] on a 4x4 terrain, at block (1, 1): cell
    10 holds the fourth draw. *)
Lemma terrain_heights_follow_seed_10_witness :
  exists t data,
    fst (Terrain.__init__ (G := lcg) "random" "random" 4 4 (sample_world 1 2 0)) = Ok t
    /\ last_heightfield
         (engine (snd (snd (Terrain.generate_terrain_from_line_30 (5 # 100)
                              (t, snd (Terrain.__init__ (G := lcg) "random" "random" 4 4
                                         (sample_world 1 2 0))))))) = Some data
    /\ data !! 10%nat = Some (0 + ((5 # 100) - 0) * nth_draw 3 (gen_seed lcg 10))%Q.
Proof.
  destruct (terrain_heights_follow_seed_10 lcg "random" 4 4 (sample_world 1 2 0)
              (5 # 100)%Q 1 1)
    as (t & data & Hmade & Hlast & Hcells); [lia|lia|lia|lia|].
  exists t, data. split; [exact Hmade|]. split; [exact Hlast|].
  unfold block_cells in Hcells. apply Forall_cons in Hcells as [Hcell _]. exact Hcell.
Defined.

(** [heightfield_build_submission] on the 4x4 heightfield: sixteen samples,
    and the body with handle 0 as floor. *)
Lemma heightfield_build_submission_witness :
  exists data : list Q,
    fst small_heightfield_run = Ok tt
    /\ Z.of_nat (length data) = 4 * 4
    /\ fst (snd small_heightfield_run)
       = RandomHeightFieldTerrain.with_floor_id 0
           (RandomHeightFieldTerrain.with__pybullet_client (Some (BulletClient 0))
              small_heightfield).
Proof.
  destruct (heightfield_build_submission lcg small_heightfield (BulletClient 0)
              (sample_world 1 2 0))
    as (data & Hok & Hlen & _ & Hself & _); [simpl; lia|simpl; lia|].
  exists data. split; [exact Hok|]. split; [exact Hlen|exact Hself].
Defined.
